(** * zuppa: the Finder-comment writer ([zuppa/methods/findercomment.py])

    A shallow embedding of [FinderComment.write_uri] and of the library
    calls it is built from: Python's [in] on [str], [re.sub] with the
    pattern [(zotero://\S+)], the three AppleScript handlers of
    [_FINDER_SCRIPTS], and the [inform]/[warn] messages. The [log] calls
    made under [__debug__] are left out. *)

From Stdlib Require Import NArith ZArith Ascii String List Bool Lia.
From stdpp Require Import base option list gmap.
Import ListNotations.

Local Open Scope N_scope.

(** ** Python strings

    A Python [str] is a sequence of Unicode code points. *)

Definition char := N.
Definition str := list char.

(** A literal of the source, as a [str]. *)
Definition lit (s : string) : str :=
  List.map N_of_ascii (list_ascii_of_string s).

(** [str.isspace] on one character, which is what [\s] and [\S] test in a
    [str] pattern. *)
Definition is_space (c : char) : bool :=
  ((0x09 <=? c) && (c <=? 0x0D)) || ((0x1C <=? c) && (c <=? 0x20))
  || (c =? 0x85) || (c =? 0xA0) || (c =? 0x1680)
  || ((0x2000 <=? c) && (c <=? 0x200A))
  || (c =? 0x2028) || (c =? 0x2029) || (c =? 0x202F) || (c =? 0x205F)
  || (c =? 0x3000).

(** [s.startswith(p)]. *)
Fixpoint startswith (p s : str) : bool :=
  match p, s with
  | [], _ => true
  | _ :: _, [] => false
  | a :: p', b :: s' => (a =? b) && startswith p' s'
  end.

(** [p in s] for two strings: [p] occurs in [s] as a substring. *)
Fixpoint contains (p s : str) : bool :=
  startswith p s
  || match s with
     | [] => false
     | _ :: s' => contains p s'
     end.

(** Truthiness of what [get_comments] hands back: [None] and the empty
    string are false. *)
Definition truthy (v : option str) : bool :=
  match v with
  | Some (_ :: _) => true
  | _ => false
  end.

(** [v and p in v] for a value [v] that is [None] or a string. *)
Definition present_in (p : str) (v : option str) : bool :=
  match v with
  | Some c => truthy v && contains p c
  | None => false
  end.

(** ** The regular expression [(zotero://\S+)] *)

Definition zotero_scheme : str := lit "zotero://".
Definition zotero_select : str := lit "zotero://select".

(** The longest run of [\S] characters at the head of [s], and what
    follows it. *)
Fixpoint take_nonspace (s : str) : str :=
  match s with
  | [] => []
  | c :: r => if is_space c then [] else c :: take_nonspace r
  end.

Fixpoint drop_nonspace (s : str) : str :=
  match s with
  | [] => s
  | c :: r => if is_space c then s else drop_nonspace r
  end.

(** The pattern matches at the head of [s]: the literal [zotero://], then
    at least one [\S]. *)
Definition matches_here (s : str) : bool :=
  startswith zotero_scheme s
  && match List.skipn 9 s with
     | c :: _ => negb (is_space c)
     | [] => false
     end.

(** The text of the match at the head of [s] (groups 0 and 1 alike): [\S+]
    is greedy and the literal has no white space, so it is the whole run. *)
Definition matched_text (s : str) : str := take_nonspace s.

(** [re.sub] with a replacement function [f] of the matched text: matches
    are found left to right, do not overlap, and all of them are
    replaced ([count] is left at 0). *)
Fixpoint sub_all (f : str -> str) (s : str) : str :=
  match s with
  | [] => []
  | c :: r =>
      if matches_here s
      then f (matched_text s) ++ sub_all f (drop_nonspace r)
      else c :: sub_all f r
  end.

(** ** The replacement template

    [re.sub] reads a replacement string as a template: a string without a
    backslash stands for itself, and otherwise [parse_template] of the
    [re] module turns it into literal characters and group references
    before any match is replaced. The pattern has the single group 1. *)

Inductive piece :=
| Literal (c : char)
| Group.          (* group 0 or group 1: the matched text *)

Definition backslash : char := 0x5C.

Definition is_digit (c : char) : bool := (0x30 <=? c) && (c <=? 0x39).
Definition is_octdigit (c : char) : bool := (0x30 <=? c) && (c <=? 0x37).
Definition is_ascii_letter (c : char) : bool :=
  ((0x41 <=? c) && (c <=? 0x5A)) || ((0x61 <=? c) && (c <=? 0x7A)).
Definition digit_value (c : char) : N := c - 0x30.

(** [int(ds)] and [int(ds, 8)] for a string of ASCII digits. *)
Definition int_of (base : N) (ds : str) : N :=
  fold_left (fun acc d => base * acc + digit_value d) ds 0.

(** The [ESCAPES] table. *)
Definition escape_char (c : char) : option char :=
  if c =? 0x61 then Some 0x07        (* \a *)
  else if c =? 0x62 then Some 0x08   (* \b *)
  else if c =? 0x66 then Some 0x0C   (* \f *)
  else if c =? 0x6E then Some 0x0A   (* \n *)
  else if c =? 0x72 then Some 0x0D   (* \r *)
  else if c =? 0x74 then Some 0x09   (* \t *)
  else if c =? 0x76 then Some 0x0B   (* \v *)
  else if c =? 0x5C then Some 0x5C   (* \\ *)
  else None.

(** The name of [\g<name>] and the text from its [>] on. *)
Fixpoint group_name (s : str) : str :=
  match s with
  | [] => []
  | c :: r => if c =? 0x3E then [] else c :: group_name r
  end.

Fixpoint from_closing (s : str) : str :=
  match s with
  | [] => s
  | c :: r => if c =? 0x3E then s else from_closing r
  end.

(** A group reference is accepted when it names a group of the pattern. *)
Definition group_ref (index : N) (k : option (list piece))
  : option (list piece) :=
  if index <=? 1 then option_map (cons Group) k else None.

Definition literal (c : char) (k : option (list piece))
  : option (list piece) :=
  option_map (cons (Literal c)) k.

(** [parse_template], as of Python 3.12: the name of [\g<name>] has to be
    ASCII digits (earlier versions read it with [int]). [None] stands for
    the exception it raises on a malformed template ([re.error], or
    [IndexError] for a group name). *)
Fixpoint parse_template (s : str) : option (list piece) :=
  match s with
  | [] => Some []
  | c :: r =>
      if negb (c =? backslash) then literal c (parse_template r) else
      match r with
      | [] => None                                  (* bad escape, at the end *)
      | e :: r1 =>
          if e =? 0x67 then                         (* \g<name> *)
            match r1 with
            | [] => None
            | lt :: r2 =>
                if negb (lt =? 0x3C) then None else (* missing < *)
                let name := group_name r2 in
                match from_closing r2 with
                | [] => None                        (* missing > *)
                | _ :: rest =>
                    match name with
                    | [] => None                    (* missing group name *)
                    | _ :: _ =>
                        if forallb is_digit name
                        then group_ref (int_of 10 name) (parse_template rest)
                        else None                   (* not a group number *)
                    end
                end
            end
          else if e =? 0x30 then                    (* \0, \0o, \0oo *)
            match r1 with
            | d1 :: r2 =>
                if is_octdigit d1 then
                  match r2 with
                  | d2 :: r3 =>
                      if is_octdigit d2
                      then literal (N.land (int_of 8 [e; d1; d2]) 0xFF)
                             (parse_template r3)
                      else literal (N.land (int_of 8 [e; d1]) 0xFF)
                             (parse_template r2)
                  | [] => literal (N.land (int_of 8 [e; d1]) 0xFF)
                            (parse_template r2)
                  end
                else literal 0 (parse_template r1)
            | [] => literal 0 (parse_template r1)
            end
          else if is_digit e then                   (* \1 .. \99, \ooo *)
            match r1 with
            | d1 :: r2 =>
                if is_digit d1 then
                  match r2 with
                  | d2 :: r3 =>
                      if is_octdigit e && is_octdigit d1 && is_octdigit d2
                      then
                        if int_of 8 [e; d1; d2] <=? 0xFF
                        then literal (int_of 8 [e; d1; d2]) (parse_template r3)
                        else None                   (* octal escape too large *)
                      else group_ref (int_of 10 [e; d1]) (parse_template r2)
                  | [] => group_ref (int_of 10 [e; d1]) (parse_template r2)
                  end
                else group_ref (int_of 10 [e]) (parse_template r1)
            | [] => group_ref (int_of 10 [e]) (parse_template r1)
            end
          else
            match escape_char e with
            | Some x => literal x (parse_template r1)
            | None =>
                if is_ascii_letter e then None      (* bad escape *)
                else literal c (literal e (parse_template r1))
            end
      end
  end.

(** What a template turns one match into. *)
Definition expand (t : list piece) (m : str) : str :=
  flat_map (fun p => match p with Literal c => [c] | Group => m end) t.

(** Exceptions that can leave [write_uri]. *)
Inductive exn :=
| ScriptError (number : Z)   (* raised by [_FINDER_SCRIPTS.call] *)
| TemplateError              (* raised by [re.sub] on a bad template *)
| TypeError.                 (* raised by [re.sub] on [None] *)

(** [re.sub('(zotero://\S+)', repl, s)] for a string [s]. *)
Definition re_sub (repl s : str) : exn + str :=
  match parse_template repl with
  | Some t => inr (sub_all (expand t) s)
  | None => inl TemplateError
  end.

(** The same for a value that is [None] or a string. *)
Definition re_sub_value (repl : str) (v : option str) : exn + str :=
  match v with
  | Some s => re_sub repl s
  | None => inl TypeError
  end.

(** A replacement without a backslash. *)
Definition plain (u : str) : bool :=
  forallb (fun c => negb (c =? backslash)%N) u.

(** Words for a token among other text: a run of [\S] characters, and
    text that starts with white space or is empty. *)
Definition nonspace (s : str) : bool := forallb (fun c => negb (is_space c)) s.

Definition at_boundary (s : str) : bool :=
  match s with
  | [] => true
  | c :: _ => is_space c
  end.

(** Text before a token: empty, or ending in white space. *)
Definition ends_in_space (s : str) : bool := at_boundary (List.rev s).

(** ** The Finder scripts and the messages

    [_FINDER_SCRIPTS] holds three AppleScript handlers. What they do is up
    to the Finder: a call acts on some world, returns a value or raises,
    and leaves a world behind. *)

Record scripts (World : Type) := Scripts {
  on_get_comments : str -> World -> (exn + option str) * World;
  on_set_comments : str -> str -> World -> (exn + unit) * World;
  on_clear_comments : str -> World -> (exn + unit) * World
}.
Arguments Scripts {World}.
Arguments on_get_comments {World}.
Arguments on_set_comments {World}.
Arguments on_clear_comments {World}.

(** One [_FINDER_SCRIPTS.call(name, ...)]. *)
Inductive call :=
| get_comments (file : str)
| set_comments (file c : str)
| clear_comments (file : str).

(** [inform] and [warn] of the [bun] package. *)
Inductive level := Inform | Warn.

(** What an invocation does, in order: script calls, each with the
    exception it raised if it did, and messages. A message is the fixed
    text of the source followed by [path], the file name as formatted by
    [antiformat(f'[grey89]{file}[/]')]; the event keeps the file. *)
Inductive event :=
| Called (c : call) (raised : option exn)
| Said (l : level) (text : string) (file : str).

Definition raised {A} (r : exn + A) : option exn :=
  match r with
  | inl e => Some e
  | inr _ => None
  end.

(** The four decisions of [write_uri], each known by its message. *)
Inductive Outcome := AlreadyPresent | Replaced | Prepended | ForcedOverwrite.

Definition report (o : Outcome) (file : str) : event :=
  match o with
  | AlreadyPresent =>
      Said Inform "Zotero URI already present in Finder comments of " file
  | Replaced =>
      Said Warn "Replacing existing Zotero URI in Finder comments of " file
  | Prepended =>
      Said Inform "Writing Zotero URI into Finder comments of " file
  | ForcedOverwrite =>
      Said Inform "Ovewriting Finder comments with Zotero URI in " file
  end.

(** The decision [write_uri] takes without [overwrite] on the comment it
    has read: the [if], the [elif] and the [else] of the source. *)
Definition decision (uri : str) (comments : option str) : Outcome :=
  if present_in uri comments then AlreadyPresent
  else if present_in zotero_select comments then Replaced
  else Prepended.

(** ** Computations: a world, a trace, and exceptions *)

Definition M (World A : Type) : Type :=
  World * list event -> (exn + A) * (World * list event).

Definition ret {World A} (a : A) : M World A := fun st => (inr a, st).

Definition bind {World A B} (m : M World A) (k : A -> M World B)
  : M World B :=
  fun st =>
    match m st with
    | (inr a, st') => k a st'
    | (inl e, st') => (inl e, st')
    end.

Definition lift {World A} (r : exn + A) : M World A := fun st => (r, st).

Declare Scope writer_scope.
Delimit Scope writer_scope with writer.
Notation "'let*' x ':=' m 'in' k" := (bind m (fun x => k))
  (at level 10, x name, m at level 100, k at level 200) : writer_scope.
Notation "m ';;;' k" := (bind m (fun _ => k))
  (at level 100, k at level 200, right associativity) : writer_scope.

Section Writer.

Context {World : Type} (FS : scripts World).

Local Open Scope writer_scope.

Definition call_get_comments (file : str) : M World (option str) :=
  fun '(w, tr) =>
    let '(r, w') := on_get_comments FS file w in
    (r, (w', tr ++ [Called (get_comments file) (raised r)])).

Definition call_set_comments (file c : str) : M World unit :=
  fun '(w, tr) =>
    let '(r, w') := on_set_comments FS file c w in
    (r, (w', tr ++ [Called (set_comments file c) (raised r)])).

Definition call_clear_comments (file : str) : M World unit :=
  fun '(w, tr) =>
    let '(r, w') := on_clear_comments FS file w in
    (r, (w', tr ++ [Called (clear_comments file) (raised r)])).

Definition say (l : level) (text : string) (file : str) : M World unit :=
  fun '(w, tr) => (inr tt, (w, tr ++ [Said l text file])).

Definition inform := say Inform.
Definition warn := say Warn.

(** The last statement of [write_uri], reached by every branch but the
    one that returns early. *)
Definition write_back (file comments : str) (dry_run : bool)
  : M World unit :=
  if negb dry_run then call_set_comments file comments else ret tt.

Definition write_uri (file uri : str) (dry_run overwrite : bool)
  : M World unit :=
  if negb overwrite then
    let* comments := call_get_comments file in
    if present_in uri comments then
      inform "Zotero URI already present in Finder comments of " file;;;
      ret tt                                                 (* return *)
    else if present_in zotero_select comments then
      warn "Replacing existing Zotero URI in Finder comments of " file;;;
      let* comments := lift (re_sub_value uri comments) in
      write_back file comments dry_run
    else
      inform "Writing Zotero URI into Finder comments of " file;;;
      let comments := uri in
      write_back file comments dry_run
  else
    (if negb dry_run then call_clear_comments file else ret tt);;;
    inform "Ovewriting Finder comments with Zotero URI in " file;;;
    let comments := uri in
    write_back file comments dry_run.

(** One invocation from world [w]: the exception that left it or the
    [None] it returned, the world left behind, and the trace. *)
Definition run (file uri : str) (dry_run overwrite : bool) (w : World)
  : (exn + unit) * (World * list event) :=
  write_uri file uri dry_run overwrite (w, []).

(** Doing one script call, and redoing the script calls of a trace. *)
Definition perform (c : call) (w : World) : option exn * World :=
  match c with
  | get_comments f => let '(r, w') := on_get_comments FS f w in (raised r, w')
  | set_comments f t =>
      let '(r, w') := on_set_comments FS f t w in (raised r, w')
  | clear_comments f =>
      let '(r, w') := on_clear_comments FS f w in (raised r, w')
  end.

Fixpoint replay (tr : list event) (w : World) : World :=
  match tr with
  | [] => w
  | Called c _ :: tr' => replay tr' (snd (perform c w))
  | Said _ _ _ :: tr' => replay tr' w
  end.

End Writer.

(** Counting the calls of a trace. *)
Definition is_set (e : event) : bool :=
  match e with Called (set_comments _ _) _ => true | _ => false end.
Definition is_clear (e : event) : bool :=
  match e with Called (clear_comments _) _ => true | _ => false end.
Definition is_get (e : event) : bool :=
  match e with Called (get_comments _) _ => true | _ => false end.
Definition is_message (e : event) : bool :=
  match e with Said _ _ _ => true | _ => false end.
Definition is_mutating (e : event) : bool := is_set e || is_clear e.

Definition count (p : event -> bool) (tr : list event) : nat :=
  List.length (List.filter p tr).

(** ** The Finder: the comment of every file that exists

    [comment of (POSIX file f as alias)] is read by [get_comments], set to
    [c] by [set_comments] and to [missing value] ([None]) by
    [clear_comments]; a path that names no file cannot be made an alias,
    and the call raises (the error numbers only tell the errors apart). *)

Definition no_such_file : exn := ScriptError (-43).

Definition finder_get (f : str) (st : gmap str (option str))
  : (exn + option str) * gmap str (option str) :=
  match st !! f with
  | Some c => (inr c, st)
  | None => (inl no_such_file, st)
  end.

Definition finder_set (f c : str) (st : gmap str (option str))
  : (exn + unit) * gmap str (option str) :=
  match st !! f with
  | Some _ => (inr tt, <[f := Some c]> st)
  | None => (inl no_such_file, st)
  end.

Definition finder_clear (f : str) (st : gmap str (option str))
  : (exn + unit) * gmap str (option str) :=
  match st !! f with
  | Some _ => (inr tt, <[f := None]> st)
  | None => (inl no_such_file, st)
  end.

Definition Finder : scripts (gmap str (option str)) :=
  Scripts finder_get finder_set finder_clear.

(** The parts of what [run] returns. *)
Definition exception {World} (x : (exn + unit) * (World * list event))
  : option exn := raised (fst x).
Definition world_after {World} (x : (exn + unit) * (World * list event))
  : World := fst (snd x).
Definition trace {World} (x : (exn + unit) * (World * list event))
  : list event := snd (snd x).

(** A Finder that reads comments and refuses to change them: its
    [set_comments] and [clear_comments] raise and leave everything as it
    is. *)
Definition access_denied : exn := ScriptError (-5000).

Definition LockedFinder : scripts (gmap str (option str)) :=
  Scripts finder_get
    (fun _ _ st => (inl access_denied, st))
    (fun _ st => (inl access_denied, st)).

(** Two invocations in succession, the second in the world the first
    left. *)
Definition run_twice {World} (FS : scripts World) (file uri : str)
    (dry_run overwrite : bool) (w : World) :=
  let first := run FS file uri dry_run overwrite w in
  (first, run FS file uri dry_run overwrite (world_after first)).

(** A file and a URI to try things on. *)
Definition paper : str := lit "/Users/me/paper.pdf".
Definition item : str := lit "zotero://select/library/items/ABCD2345".
Definition shelf (comment : option str) : gmap str (option str) :=
  {[ paper := comment ]}.

(** The file an event is about. *)
Definition call_file (c : call) : str :=
  match c with
  | get_comments f => f
  | set_comments f _ => f
  | clear_comments f => f
  end.

Definition event_file (e : event) : str :=
  match e with
  | Called c _ => call_file c
  | Said _ _ f => f
  end.

(** A token the pattern matches whole: [zotero://], at least one more
    character, no white space. *)
Definition scheme_token (tok : str) : bool :=
  startswith zotero_scheme tok && nonspace tok
  && Nat.ltb 9 (List.length tok).

(** [FinderComment.name] and [FinderComment.description]. *)
Definition name : string := "findercomment".

Definition description : string :=
  ("Prepends the Zotero select link to the Finder comments for the"
   ++ " file. Zuppa tries to be careful how it does this: if it"
   ++ " finds a Zotero URI as the first thing in the comments, it"
   ++ " replaces that URI instead of prepending a new one."
   ++ " However, Finder comments are notorious for being easy to"
   ++ " damage or lose, so beware that Zuppa may irretrievably"
   ++ " corrupt any existing Finder comments on the file.")%string.

Local Close Scope N_scope.

(** * Properties *)

(** ** The pattern and the template on examples *)

Example sub_all_tokens :
  sub_all (fun _ => lit "U") (lit "a zotero://x zotero:// =zotero://y.")
  = lit "a U zotero:// =U".
Proof. vm_compute. reflexivity. Qed.

Example matched_text_token :
  matched_text (lit "zotero://select/A, zotero://select/B")
  = lit "zotero://select/A,".
Proof. vm_compute. reflexivity. Qed.

Example re_sub_escapes :
  re_sub (lit "<\\|\1|\g<0>|\101|\.|\n>") (lit "zotero://x y")
  = inr (lit "<\|zotero://x|zotero://x|A|\.|" ++ [10%N] ++ lit "> y").
Proof. vm_compute. reflexivity. Qed.

Example re_sub_bad_escape :
  re_sub (lit "zotero://select/\q") (lit "zotero://x y") = inl TemplateError.
Proof. vm_compute. reflexivity. Qed.

Example re_sub_bad_group :
  re_sub (lit "zotero://select/\2") (lit "zotero://x y") = inl TemplateError.
Proof. vm_compute. reflexivity. Qed.

(** ** What one invocation does, branch by branch *)

Section Branches.

Context {World : Type} (FS : scripts World).
Variables (file uri : str) (w : World).

Ltac step :=
  unfold run, write_uri, write_back, inform, warn, say, bind, ret, lift,
    call_get_comments, call_set_comments, call_clear_comments; simpl.

Lemma run_get_raises dry_run e w1 :
  on_get_comments FS file w = (inl e, w1) ->
  run FS file uri dry_run false w
  = (inl e, (w1, [Called (get_comments file) (Some e)])).
Proof. intros Hg. step. rewrite Hg. reflexivity. Qed.

Lemma run_already_present dry_run v w1 :
  on_get_comments FS file w = (inr v, w1) ->
  present_in uri v = true ->
  run FS file uri dry_run false w
  = (inr tt, (w1, [Called (get_comments file) None;
                   report AlreadyPresent file])).
Proof. intros Hg Hp. step. rewrite Hg. simpl. rewrite Hp. reflexivity. Qed.

Lemma run_replaced v w1 c r w2 :
  on_get_comments FS file w = (inr v, w1) ->
  present_in uri v = false ->
  present_in zotero_select v = true ->
  re_sub_value uri v = inr c ->
  on_set_comments FS file c w1 = (r, w2) ->
  run FS file uri false false w
  = (r, (w2, [Called (get_comments file) None;
              report Replaced file;
              Called (set_comments file c) (raised r)])).
Proof.
  intros Hg Hu Hz Hs Hset. step. rewrite Hg. simpl. rewrite Hu, Hz. simpl.
  rewrite Hs. simpl. rewrite Hset. destruct r; reflexivity.
Qed.

Lemma run_replaced_dry v w1 c :
  on_get_comments FS file w = (inr v, w1) ->
  present_in uri v = false ->
  present_in zotero_select v = true ->
  re_sub_value uri v = inr c ->
  run FS file uri true false w
  = (inr tt, (w1, [Called (get_comments file) None; report Replaced file])).
Proof.
  intros Hg Hu Hz Hs. step. rewrite Hg. simpl. rewrite Hu, Hz. simpl.
  rewrite Hs. reflexivity.
Qed.

Lemma run_replaced_raises dry_run v w1 e :
  on_get_comments FS file w = (inr v, w1) ->
  present_in uri v = false ->
  present_in zotero_select v = true ->
  re_sub_value uri v = inl e ->
  run FS file uri dry_run false w
  = (inl e, (w1, [Called (get_comments file) None; report Replaced file])).
Proof.
  intros Hg Hu Hz Hs. step. rewrite Hg. simpl. rewrite Hu, Hz. simpl.
  rewrite Hs. reflexivity.
Qed.

Lemma run_prepended v w1 r w2 :
  on_get_comments FS file w = (inr v, w1) ->
  present_in uri v = false ->
  present_in zotero_select v = false ->
  on_set_comments FS file uri w1 = (r, w2) ->
  run FS file uri false false w
  = (r, (w2, [Called (get_comments file) None;
              report Prepended file;
              Called (set_comments file uri) (raised r)])).
Proof.
  intros Hg Hu Hz Hset. step. rewrite Hg. simpl. rewrite Hu, Hz. simpl.
  rewrite Hset. destruct r; reflexivity.
Qed.

Lemma run_prepended_dry v w1 :
  on_get_comments FS file w = (inr v, w1) ->
  present_in uri v = false ->
  present_in zotero_select v = false ->
  run FS file uri true false w
  = (inr tt, (w1, [Called (get_comments file) None; report Prepended file])).
Proof.
  intros Hg Hu Hz. step. rewrite Hg. simpl. rewrite Hu, Hz. reflexivity.
Qed.

Lemma run_overwrite_dry :
  run FS file uri true true w
  = (inr tt, (w, [report ForcedOverwrite file])).
Proof. reflexivity. Qed.

Lemma run_overwrite_clear_raises e w1 :
  on_clear_comments FS file w = (inl e, w1) ->
  run FS file uri false true w
  = (inl e, (w1, [Called (clear_comments file) (Some e)])).
Proof. intros Hc. step. rewrite Hc. reflexivity. Qed.

Lemma run_overwrite u w1 r w2 :
  on_clear_comments FS file w = (inr u, w1) ->
  on_set_comments FS file uri w1 = (r, w2) ->
  run FS file uri false true w
  = (r, (w2, [Called (clear_comments file) None;
              report ForcedOverwrite file;
              Called (set_comments file uri) (raised r)])).
Proof.
  intros Hc Hset. step. rewrite Hc. simpl. rewrite Hset.
  destruct r; reflexivity.
Qed.

End Branches.

(** ** Calls per invocation, dry runs, exceptions *)

Section Calls.

Context {World : Type} (FS : scripts World).

Ltac run_cases file uri w :=
  unfold run, write_uri, write_back, inform, warn, say, bind, ret, lift,
    call_get_comments, call_set_comments, call_clear_comments; simpl;
  repeat
    match goal with
    | |- context [on_get_comments FS file w] =>
        destruct (on_get_comments FS file w) as [[?e|?v] ?w] eqn:?Hget; simpl
    | |- context [on_clear_comments FS file w] =>
        destruct (on_clear_comments FS file w) as [[?e|[]] ?w] eqn:?Hclear;
        simpl
    | |- context [on_set_comments FS file ?c ?w1] =>
        destruct (on_set_comments FS file c w1) as [[?e|[]] ?w] eqn:?Hset;
        simpl
    | |- context [present_in ?p ?v] =>
        destruct (present_in p v) eqn:?Hin; simpl
    | |- context [re_sub_value ?p ?v] =>
        destruct (re_sub_value p v) as [?e|?c] eqn:?Hsub; simpl
    end.

(** Finding a failed call in a known trace. *)
Ltac locate_failure :=
  match goal with
  | H : _ = ?pre ++ Called _ (Some _) :: _ |- _ =>
      destruct pre; simpl in H;
      [ inversion H; subst; simpl;
        repeat match goal with
               | E : _ = (_, _) |- _ => rewrite E; simpl
               end;
        auto
      | inversion H; subst; clear H; try locate_failure ]
  | H : [] = ?pre ++ _ :: _ |- _ => destruct pre; discriminate H
  end.

(** C8. Whatever the comment and the two flags, one invocation makes at
    most one [set_comments] call and at most one [clear_comments] call
    (and at most one [get_comments] call). *)
Theorem write_uri_call_counts file uri dry_run overwrite w :
  count is_set (trace (run FS file uri dry_run overwrite w)) <= 1
  /\ count is_clear (trace (run FS file uri dry_run overwrite w)) <= 1
  /\ count is_get (trace (run FS file uri dry_run overwrite w)) <= 1.
Proof.
  destruct dry_run, overwrite; run_cases file uri w;
    unfold count, trace; simpl; lia.
Qed.

(** C3. A dry run makes no [set_comments] and no [clear_comments] call,
    in whichever branch, and leaves the world as it was (or as the read
    left it); without [overwrite] its first action is still the
    [get_comments] call; what it does and says is what the real run does
    and says with the mutating calls left out, the real run's
    [clear_comments] not raising; and it does report the outcome: with
    [overwrite] it says that it overwrites and does nothing else, without
    [overwrite] it reads and then says what it has decided on the comment
    read, and the real run says the same. *)
Theorem write_uri_dry_run file uri overwrite w :
  count is_mutating (trace (run FS file uri true overwrite w)) = 0
  /\ world_after (run FS file uri true overwrite w)
     = (if overwrite then w else snd (on_get_comments FS file w))
  /\ (overwrite = false ->
      hd_error (trace (run FS file uri true overwrite w))
      = Some (Called (get_comments file)
                (raised (fst (on_get_comments FS file w)))))
  /\ ((overwrite = true ->
       raised (fst (on_clear_comments FS file w)) = None) ->
      trace (run FS file uri true overwrite w)
      = List.filter (fun e => negb (is_mutating e))
          (trace (run FS file uri false overwrite w)))
  /\ (overwrite = true ->
      run FS file uri true overwrite w
      = (inr tt, (w, [report ForcedOverwrite file]))
      /\ (raised (fst (on_clear_comments FS file w)) = None ->
          List.filter is_message (trace (run FS file uri false overwrite w))
          = [report ForcedOverwrite file]))
  /\ (overwrite = false ->
      forall v, fst (on_get_comments FS file w) = inr v ->
      trace (run FS file uri true overwrite w)
      = [Called (get_comments file) None; report (decision uri v) file]
      /\ List.filter is_message (trace (run FS file uri false overwrite w))
         = [report (decision uri v) file]).
Proof.
  destruct overwrite.
  - split; [reflexivity|]. split; [reflexivity|].
    split; [discriminate|]. split; [|split; [|discriminate]].
    + intros Hc. specialize (Hc eq_refl). revert Hc.
      run_cases file uri w; unfold trace; simpl; intros; congruence.
    + intros _. split; [reflexivity|].
      run_cases file uri w; unfold trace; simpl; intros Hc;
        first [discriminate Hc | reflexivity].
  - split; [run_cases file uri w; reflexivity|].
    split; [run_cases file uri w; reflexivity|].
    split; [intros _; run_cases file uri w; reflexivity|].
    split; [intros _; run_cases file uri w; reflexivity|].
    split; [discriminate|].
    intros _ v. unfold decision.
    unfold run, write_uri, write_back, inform, warn, say, bind, ret, lift,
      call_get_comments, call_set_comments, call_clear_comments, trace.
    cbn [negb].
    destruct (on_get_comments FS file w) as [[e|v0] w0] eqn:Hget;
      cbn [fst snd]; intros Hv; [discriminate Hv|].
    injection Hv as ->.
    destruct (present_in uri v) eqn:Hu; cbn [fst snd app List.filter];
      [split; reflexivity|].
    destruct (present_in zotero_select v) eqn:Hz; cbn [fst snd app].
    + destruct (re_sub_value uri v) as [e|c]; cbn [fst snd app];
        [split; reflexivity|].
      destruct (on_set_comments FS file c w0) as [[e|[]] w1];
        split; reflexivity.
    + destruct (on_set_comments FS file uri w0) as [[e|[]] w1];
        split; reflexivity.
Qed.

(** C9. When a script call of an invocation raises, nothing follows it
    in the trace (no further call, no message), the invocation ends with
    that very exception, and the world it leaves is the one the failed
    call left: the call was made in the world the earlier calls had
    produced, and nothing touched the world after it. *)
Theorem write_uri_failure_propagates
    file uri dry_run overwrite w r w' pre c e post :
  run FS file uri dry_run overwrite w
  = (r, (w', pre ++ Called c (Some e) :: post)) ->
  post = [] /\ r = inl e /\ perform FS c (replay FS pre w) = (Some e, w').
Proof.
  destruct dry_run, overwrite; run_cases file uri w; intros Heq;
    inversion Heq; subst; clear Heq; locate_failure.
Qed.

End Calls.

(** ** Substrings *)

Lemma startswith_app p r : startswith p (p ++ r) = true.
Proof.
  induction p as [|a p IH]; simpl; [reflexivity|].
  rewrite N.eqb_refl. exact IH.
Qed.

Lemma contains_here p s : startswith p s = true -> contains p s = true.
Proof. intros H. destruct s; simpl in *; rewrite H; reflexivity. Qed.

Lemma contains_cons p a s : contains p s = true -> contains p (a :: s) = true.
Proof. intros H. simpl. rewrite H. apply orb_true_r. Qed.

Lemma contains_app_l p l s :
  contains p s = true -> contains p (l ++ s) = true.
Proof.
  intros H. induction l as [|a l IH]; simpl; [exact H|].
  change (l ++ s) with (app l s) in *. rewrite IH. apply orb_true_r.
Qed.

Lemma contains_self p : contains p p = true.
Proof.
  apply contains_here. rewrite <- (app_nil_r p) at 2. apply startswith_app.
Qed.

Lemma contains_infix p l r : contains p (l ++ p ++ r) = true.
Proof. apply contains_app_l, contains_here, startswith_app. Qed.

Lemma contains_nonempty p s : contains p s = true -> p <> [] -> s <> [].
Proof. intros H Hp ->. destruct p; [congruence | discriminate]. Qed.

Lemma truthy_nonempty c : c <> [] -> truthy (Some c) = true.
Proof. destruct c; [congruence | reflexivity]. Qed.

Lemma present_in_truthy p v : truthy v = false -> present_in p v = false.
Proof. destruct v as [c|]; simpl; [|reflexivity]. intros ->. reflexivity. Qed.

Lemma present_in_some p c :
  p <> [] -> contains p c = true -> present_in p (Some c) = true.
Proof.
  intros Hp H. pose proof (contains_nonempty p c H Hp) as Hc.
  destruct c; [congruence|]. unfold present_in, truthy. rewrite H. reflexivity.
Qed.

Lemma present_in_absent p c :
  contains p c = false -> present_in p (Some c) = false.
Proof. intros H. unfold present_in. rewrite H. destruct c; reflexivity. Qed.

(** ** The pattern and the template *)

(** A string that starts with [zotero://select] starts with a match. *)
Lemma select_matches s :
  startswith zotero_select s = true -> matches_here s = true.
Proof.
  intros H. unfold matches_here.
  assert (Hs : zotero_select = zotero_scheme ++ [115; 101; 108; 101; 99; 116]%N)
    by reflexivity.
  rewrite Hs in H. clear Hs.
  assert (Hz : zotero_scheme = [122; 111; 116; 101; 114; 111; 58; 47; 47]%N)
    by reflexivity.
  rewrite Hz in *. clear Hz.
  do 10 (destruct s as [|? s]; cbn [startswith app] in H; [discriminate H|];
         apply andb_prop in H; destruct H as [?E H]).
  repeat match goal with E : (_ =? _)%N = true |- _ =>
           apply N.eqb_eq in E; subst end.
  reflexivity.
Qed.

Lemma matches_scheme s :
  matches_here s = true -> startswith zotero_scheme s = true.
Proof. unfold matches_here. intros H. apply andb_prop in H. tauto. Qed.

(** Where the comment has [zotero://select], [re.sub] finds a match, and
    the result has the replacement in it. *)
Lemma sub_all_contains f u s :
  (forall m, f m = u) ->
  contains zotero_select s = true -> contains u (sub_all f s) = true.
Proof.
  intros Hf. induction s as [|a s IH]; [discriminate|].
  intros H. cbn [sub_all]. destruct (matches_here (a :: s)) eqn:Hm.
  - rewrite Hf. apply contains_here, startswith_app.
  - apply contains_cons, IH. cbn [contains] in H.
    apply orb_prop in H. destruct H as [H|H]; [|exact H].
    apply select_matches in H. congruence.
Qed.

(** Without [zotero://] there is no match and nothing changes. *)
Lemma sub_all_no_scheme f s :
  contains zotero_scheme s = false -> sub_all f s = s.
Proof.
  induction s as [|a s IH]; [reflexivity|].
  intros H. cbn [contains] in H. apply orb_false_elim in H as [Hh Ht].
  cbn [sub_all]. destruct (matches_here (a :: s)) eqn:Hm.
  - apply matches_scheme in Hm. congruence.
  - rewrite IH by exact Ht. reflexivity.
Qed.

Lemma sub_all_ext f g s : (forall m, f m = g m) -> sub_all f s = sub_all g s.
Proof.
  intros Hfg. remember (List.length s) as n eqn:Hn.
  revert s Hn. induction n as [n IH] using lt_wf_ind. intros s Hn.
  destruct s as [|a s]; [reflexivity|]. cbn [sub_all].
  assert (Hd : forall t : str, List.length (drop_nonspace t) <= List.length t).
  { induction t as [|c t IHt]; simpl; [lia|].
    destruct (is_space c); simpl; lia. }
  destruct (matches_here (a :: s)).
  - rewrite Hfg. f_equal.
    apply (IH (List.length (drop_nonspace s))); [|reflexivity].
    subst n. simpl. specialize (Hd s). lia.
  - f_equal. apply (IH (List.length s)); [subst n; simpl; lia | reflexivity].
Qed.

Lemma parse_template_plain u :
  plain u = true -> parse_template u = Some (List.map Literal u).
Proof.
  induction u as [|c u IH]; [reflexivity|].
  unfold plain. simpl. intros H. apply andb_prop in H as [Hc Hu].
  rewrite Hc. unfold literal. rewrite (IH Hu). reflexivity.
Qed.

Lemma expand_literals u m : expand (List.map Literal u) m = u.
Proof. induction u as [|c u IH]; simpl; [reflexivity|]. f_equal. exact IH. Qed.

Lemma re_sub_plain u s :
  plain u = true -> re_sub u s = inr (sub_all (fun _ => u) s).
Proof.
  intros H. unfold re_sub. rewrite (parse_template_plain u H).
  f_equal. apply sub_all_ext. intros m. apply expand_literals.
Qed.

Lemma startswith_app_l p s r :
  startswith p s = true -> startswith p (s ++ r) = true.
Proof.
  revert s. induction p as [|a p IH]; intros s H; [reflexivity|].
  destruct s as [|b s]; [discriminate|]. simpl in *.
  apply andb_prop in H as [-> H]. simpl. apply IH, H.
Qed.

Lemma take_nonspace_token tok post :
  nonspace tok = true -> at_boundary post = true ->
  take_nonspace (tok ++ post) = tok.
Proof.
  intros Ht Hp. unfold nonspace in *.
  induction tok as [|c tok IH]; cbn [take_nonspace app forallb] in *.
  - destruct post as [|d post]; [reflexivity|].
    cbn [at_boundary take_nonspace] in *. rewrite Hp. reflexivity.
  - apply andb_prop in Ht as [Hc Ht]. apply negb_true_iff in Hc.
    rewrite Hc. f_equal. apply IH, Ht.
Qed.

Lemma drop_nonspace_token tok post :
  nonspace tok = true -> at_boundary post = true ->
  drop_nonspace (tok ++ post) = post.
Proof.
  intros Ht Hp. unfold nonspace in *.
  induction tok as [|c tok IH]; cbn [drop_nonspace app forallb] in *.
  - destruct post as [|d post]; [reflexivity|].
    cbn [at_boundary drop_nonspace] in *. rewrite Hp. reflexivity.
  - apply andb_prop in Ht as [Hc Ht]. apply negb_true_iff in Hc.
    rewrite Hc. apply IH, Ht.
Qed.

Lemma sub_all_leading f tok post :
  startswith zotero_select tok = true ->
  nonspace tok = true -> at_boundary post = true ->
  sub_all f (tok ++ post) = f tok ++ sub_all f post.
Proof.
  intros Hs Ht Hp.
  pose proof (select_matches _ (startswith_app_l _ _ post Hs)) as Hm.
  destruct tok as [|a tok]; [discriminate Hs|].
  change ((a :: tok) ++ post) with (a :: (tok ++ post)) in *.
  cbn [sub_all]. rewrite Hm. unfold matched_text.
  change (a :: (tok ++ post)) with ((a :: tok) ++ post).
  rewrite (take_nonspace_token _ _ Ht Hp).
  unfold nonspace in Ht. cbn [forallb] in Ht. apply andb_prop in Ht as [_ Ht].
  rewrite (drop_nonspace_token _ _ Ht Hp). reflexivity.
Qed.

(** Text without [zotero://] that ends in white space is passed over,
    whatever follows it. *)
Lemma strict_prefix_nonspace p l s :
  nonspace p = true ->
  startswith p (l ++ s) = true -> startswith p l = false ->
  nonspace l = true.
Proof.
  unfold nonspace. revert l.
  induction p as [|x p IH]; intros l Hp Hs Hl; [discriminate Hl|].
  destruct l as [|b l]; [reflexivity|].
  cbn [app startswith forallb] in *.
  apply andb_prop in Hp as [Hx Hp]. apply andb_prop in Hs as [Hb Hs].
  rewrite Hb in Hl. apply N.eqb_eq in Hb. subst b. rewrite Hx.
  apply (IH l Hp Hs Hl).
Qed.

Lemma nonspace_ends_in_space l :
  nonspace l = true -> l <> [] -> ends_in_space l = false.
Proof.
  unfold nonspace, ends_in_space. intros Hl Hne.
  destruct (List.rev l) as [|c r] eqn:Hr.
  - apply (f_equal (@List.rev char)) in Hr. rewrite List.rev_involutive in Hr.
    simpl in Hr. congruence.
  - cbn [at_boundary]. apply negb_true_iff.
    apply (proj1 (forallb_forall _ l) Hl c).
    apply List.in_rev. rewrite Hr. left. reflexivity.
Qed.

Lemma ends_in_space_tail a l :
  ends_in_space (a :: l) = true -> ends_in_space l = true.
Proof.
  unfold ends_in_space. cbn [List.rev].
  destruct (List.rev l) as [|c r]; [reflexivity|]. intros H. exact H.
Qed.

Lemma sub_all_skip f pre s :
  contains zotero_scheme pre = false -> ends_in_space pre = true ->
  sub_all f (pre ++ s) = pre ++ sub_all f s.
Proof.
  induction pre as [|a pre IH]; intros Hc He; [reflexivity|].
  cbn [contains] in Hc. apply orb_false_elim in Hc as [Hh Ht].
  change ((a :: pre) ++ s) with (a :: (pre ++ s)).
  cbn [sub_all]. destruct (matches_here (a :: (pre ++ s))) eqn:Hm.
  - apply matches_scheme in Hm.
    assert (Hn : nonspace (a :: pre) = true).
    { apply (strict_prefix_nonspace zotero_scheme (a :: pre) s);
        [reflexivity | exact Hm | exact Hh]. }
    rewrite (nonspace_ends_in_space _ Hn) in He by discriminate.
    discriminate He.
  - rewrite (IH Ht (ends_in_space_tail a pre He)). reflexivity.
Qed.

(** One token among other text. *)
Lemma sub_all_token f pre tok post :
  contains zotero_scheme pre = false -> ends_in_space pre = true ->
  startswith zotero_select tok = true ->
  nonspace tok = true -> at_boundary post = true ->
  sub_all f (pre ++ tok ++ post) = pre ++ f tok ++ sub_all f post.
Proof.
  intros Hc He Hs Ht Hp.
  rewrite (sub_all_skip f pre _ Hc He).
  rewrite (sub_all_leading f tok post Hs Ht Hp). reflexivity.
Qed.

(** ** The Finder model *)

Section OnFinder.

Variables (st : gmap str (option str)) (file : str) (v : option str).
Hypothesis Hfile : st !! file = Some v.

Lemma finder_get_ok : on_get_comments Finder file st = (inr v, st).
Proof. simpl. unfold finder_get. rewrite Hfile. reflexivity. Qed.

Lemma finder_set_ok c :
  on_set_comments Finder file c st = (inr tt, <[file := Some c]> st).
Proof. simpl. unfold finder_set. rewrite Hfile. reflexivity. Qed.

Lemma finder_clear_ok :
  on_clear_comments Finder file st = (inr tt, <[file := None]> st).
Proof. simpl. unfold finder_clear. rewrite Hfile. reflexivity. Qed.

End OnFinder.

Lemma finder_already_present
    (st : gmap str (option str)) (file uri : str) (v : option str)
    (dry_run : bool) :
  st !! file = Some v ->
  present_in uri v = true ->
  run Finder file uri dry_run false st
  = (inr tt, (st, [Called (get_comments file) None;
                   report AlreadyPresent file])).
Proof.
  intros Hf Hv.
  apply (run_already_present Finder file uri st dry_run v st);
    [apply (finder_get_ok st file v Hf) | exact Hv].
Qed.

Lemma finder_prepended
    (st : gmap str (option str)) (file uri : str) (v : option str) :
  st !! file = Some v ->
  present_in uri v = false ->
  present_in zotero_select v = false ->
  run Finder file uri false false st
  = (inr tt, (<[file := Some uri]> st,
              [Called (get_comments file) None;
               report Prepended file;
               Called (set_comments file uri) None])).
Proof.
  intros Hf Hu Hz.
  rewrite (run_prepended Finder file uri st v st (inr tt)
             (<[file := Some uri]> st)).
  - reflexivity.
  - apply (finder_get_ok st file v Hf).
  - exact Hu.
  - exact Hz.
  - apply (finder_set_ok st file v Hf).
Qed.

(** C2. Without [overwrite], when the comment read from the file has the
    URI in it, the invocation makes the [get_comments] call and no other,
    dry run or not, says that the URI is already present, and leaves every
    comment as it was. *)
Theorem write_uri_already_present
    (st : gmap str (option str)) (file uri c : str) (dry_run : bool) :
  uri <> [] ->
  st !! file = Some (Some c) ->
  contains uri c = true ->
  run Finder file uri dry_run false st
  = (inr tt, (st, [Called (get_comments file) None;
                   report AlreadyPresent file])).
Proof.
  intros Hu Hf Hc.
  apply (finder_already_present st file uri (Some c) dry_run Hf).
  apply present_in_some; assumption.
Qed.

(** C4. With [overwrite] and no dry run, whatever the comment of the file
    was, the invocation calls [clear_comments] once, then says that it
    overwrites, then calls [set_comments] once with the URI, and the
    comment of the file is then the URI alone. *)
Theorem write_uri_overwrite
    (st : gmap str (option str)) (file uri : str) (v : option str) :
  st !! file = Some v ->
  run Finder file uri false true st
  = (inr tt, (<[file := Some uri]> st,
              [Called (clear_comments file) None;
               report ForcedOverwrite file;
               Called (set_comments file uri) None])).
Proof.
  intros Hf.
  rewrite (run_overwrite Finder file uri st tt (<[file := None]> st)
             (inr tt) (<[file := Some uri]> st)).
  - reflexivity.
  - apply (finder_clear_ok st file v Hf).
  - rewrite (finder_set_ok (<[file := None]> st) file None).
    + rewrite insert_insert_eq. reflexivity.
    + apply lookup_insert_eq.
Qed.

(** C7. Without [overwrite] and without dry run, when the file has no
    comment, or an empty one, or one with neither the URI nor
    [zotero://select] in it, the invocation says that it writes the URI
    and sets the comment to the URI alone: what the comment held is
    gone. *)
Theorem write_uri_prepended
    (st : gmap str (option str)) (file uri : str) (v : option str) :
  st !! file = Some v ->
  truthy v = false
  \/ (exists c, v = Some c /\ contains uri c = false
                /\ contains zotero_select c = false) ->
  run Finder file uri false false st
  = (inr tt, (<[file := Some uri]> st,
              [Called (get_comments file) None;
               report Prepended file;
               Called (set_comments file uri) None])).
Proof.
  intros Hf Hv.
  assert (present_in uri v = false /\ present_in zotero_select v = false)
    as [Hu Hz].
  { destruct Hv as [Hv | (c & -> & Hu & Hz)].
    - split; apply present_in_truthy, Hv.
    - split; apply present_in_absent; assumption. }
  exact (finder_prepended st file uri v Hf Hu Hz).
Qed.

(** ** Replacing an existing URI *)

(** The branch that replaces: the comment written is what [re.sub]
    returns. *)
Lemma write_uri_replaced
    (st : gmap str (option str)) (file uri c c' : str) :
  st !! file = Some (Some c) ->
  contains uri c = false ->
  contains zotero_select c = true ->
  re_sub uri c = inr c' ->
  run Finder file uri false false st
  = (inr tt, (<[file := Some c']> st,
              [Called (get_comments file) None;
               report Replaced file;
               Called (set_comments file c') None])).
Proof.
  intros Hf Hu Hz Hs.
  rewrite (run_replaced Finder file uri st (Some c) st c' (inr tt)
             (<[file := Some c']> st)).
  - reflexivity.
  - apply (finder_get_ok st file _ Hf).
  - apply present_in_absent, Hu.
  - apply present_in_some; [discriminate | exact Hz].
  - exact Hs.
  - apply (finder_set_ok st file _ Hf).
Qed.

(** For a URI without a backslash it is the old comment with every match
    of the pattern replaced by the URI. *)
Lemma write_uri_replaced_plain
    (st : gmap str (option str)) (file uri c : str) :
  plain uri = true ->
  st !! file = Some (Some c) ->
  contains uri c = false ->
  contains zotero_select c = true ->
  run Finder file uri false false st
  = (inr tt, (<[file := Some (sub_all (fun _ => uri) c)]> st,
              [Called (get_comments file) None;
               report Replaced file;
               Called (set_comments file (sub_all (fun _ => uri) c)) None])).
Proof.
  intros Hp Hf Hu Hz.
  apply (write_uri_replaced st file uri c _ Hf Hu Hz), re_sub_plain, Hp.
Qed.

(** A comment with one Zotero URI in it, the token [tok] between [pre]
    and [post]: the URI is replaced where it stands and the text around
    it is kept. *)
Lemma write_uri_replaces_single_uri
    (st : gmap str (option str)) (file uri pre tok post : str) :
  plain uri = true ->
  st !! file = Some (Some (pre ++ tok ++ post)) ->
  contains uri (pre ++ tok ++ post) = false ->
  contains zotero_scheme pre = false -> ends_in_space pre = true ->
  startswith zotero_select tok = true ->
  nonspace tok = true -> at_boundary post = true ->
  contains zotero_scheme post = false ->
  run Finder file uri false false st
  = (inr tt, (<[file := Some (pre ++ uri ++ post)]> st,
              [Called (get_comments file) None;
               report Replaced file;
               Called (set_comments file (pre ++ uri ++ post)) None])).
Proof.
  intros Hp Hf Hu Hc He Hs Ht Hb Hn.
  rewrite (write_uri_replaced_plain st file uri (pre ++ tok ++ post) Hp Hf Hu).
  - rewrite (sub_all_token _ pre tok post Hc He Hs Ht Hb).
    rewrite (sub_all_no_scheme _ post Hn). reflexivity.
  - apply contains_app_l, contains_here, startswith_app_l, Hs.
Qed.

(** Two tokens: both are replaced. *)
Lemma sub_all_two_tokens f pre tok1 mid tok2 post :
  contains zotero_scheme pre = false -> ends_in_space pre = true ->
  startswith zotero_select tok1 = true -> nonspace tok1 = true ->
  mid <> [] -> at_boundary mid = true ->
  contains zotero_scheme mid = false -> ends_in_space mid = true ->
  startswith zotero_select tok2 = true -> nonspace tok2 = true ->
  at_boundary post = true ->
  sub_all f (pre ++ tok1 ++ mid ++ tok2 ++ post)
  = pre ++ f tok1 ++ mid ++ f tok2 ++ sub_all f post.
Proof.
  intros Hc He Hs1 Ht1 Hne Hb Hcm Hem Hs2 Ht2 Hp.
  assert (Hbm : at_boundary (mid ++ tok2 ++ post) = true).
  { destruct mid as [|c mid]; [congruence | exact Hb]. }
  rewrite (sub_all_token f pre tok1 _ Hc He Hs1 Ht1 Hbm).
  rewrite (sub_all_token f mid tok2 post Hcm Hem Hs2 Ht2 Hp). reflexivity.
Qed.

(** The example of the specification. *)
Example write_uri_old_new (file : str) :
  run Finder file (lit "zotero://select/items/NEW") false false
    {[ file := Some (lit "zotero://select/items/OLD some notes") ]}
  = (inr tt,
     ({[ file := Some (lit "zotero://select/items/NEW some notes") ]},
      [Called (get_comments file) None;
       report Replaced file;
       Called (set_comments file (lit "zotero://select/items/NEW some notes"))
         None])).
Proof.
  rewrite (write_uri_replaces_single_uri _ file _ []
             (lit "zotero://select/items/OLD") (lit " some notes"));
    try (vm_compute; reflexivity).
  - rewrite insert_singleton_eq. reflexivity.
  - apply lookup_singleton_eq.
Qed.

(** The same comment and a URI with a backslash in it: [re.sub] reads the
    URI as a template, and what is written is not the URI. *)
Example write_uri_old_new_template (file : str) :
  run Finder file (lit "zotero://select/items/\1") false false
    {[ file := Some (lit "zotero://select/items/OLD some notes") ]}
  = (inr tt,
     ({[ file :=
           Some (lit "zotero://select/items/zotero://select/items/OLD some notes")
      ]},
      [Called (get_comments file) None;
       report Replaced file;
       Called
         (set_comments file
            (lit "zotero://select/items/zotero://select/items/OLD some notes"))
         None])).
Proof.
  rewrite (write_uri_replaced _ file _
             (lit "zotero://select/items/OLD some notes")
             (lit "zotero://select/items/zotero://select/items/OLD some notes"));
    try (vm_compute; reflexivity).
  - rewrite insert_singleton_eq. reflexivity.
  - apply lookup_singleton_eq.
Qed.

(** A URI that is no template: the message is out, [re.sub] raises, and
    nothing is written. *)
Example write_uri_old_new_bad_template (file : str) :
  run Finder file (lit "zotero://select/items/\NEW") false false
    {[ file := Some (lit "zotero://select/items/OLD some notes") ]}
  = (inl TemplateError,
     ({[ file := Some (lit "zotero://select/items/OLD some notes") ]},
      [Called (get_comments file) None; report Replaced file])).
Proof.
  apply (run_replaced_raises Finder file _ _ false
           (Some (lit "zotero://select/items/OLD some notes")));
    try (vm_compute; reflexivity).
  apply (finder_get_ok _ file _ (lookup_singleton_eq _ _)).
Qed.

(** C1. The comment [zotero://select/A zotero://select/B] and the URI
    [zotero://select/C]: both tokens are replaced, the comment written is
    [zotero://select/C zotero://select/C] and not
    [zotero://select/C zotero://select/B]. *)
Theorem write_uri_two_tokens (file : str) :
  run Finder file (lit "zotero://select/C") false false
    {[ file := Some (lit "zotero://select/A zotero://select/B") ]}
  = (inr tt,
     ({[ file := Some (lit "zotero://select/C zotero://select/C") ]},
      [Called (get_comments file) None;
       report Replaced file;
       Called (set_comments file (lit "zotero://select/C zotero://select/C"))
         None]))
  /\ world_after
       (run Finder file (lit "zotero://select/C") false false
          {[ file := Some (lit "zotero://select/A zotero://select/B") ]})
     !! file
     <> Some (Some (lit "zotero://select/C zotero://select/B")).
Proof.
  assert (Hrun :
    run Finder file (lit "zotero://select/C") false false
      {[ file := Some (lit "zotero://select/A zotero://select/B") ]}
    = (inr tt,
       ({[ file := Some (lit "zotero://select/C zotero://select/C") ]},
        [Called (get_comments file) None;
         report Replaced file;
         Called (set_comments file (lit "zotero://select/C zotero://select/C"))
           None]))).
  { rewrite (write_uri_replaced_plain _ file _
               (lit "zotero://select/A zotero://select/B"));
      try (vm_compute; reflexivity).
    - rewrite insert_singleton_eq. reflexivity.
    - apply lookup_singleton_eq. }
  split; [exact Hrun|]. rewrite Hrun. unfold world_after. cbn [fst snd].
  rewrite lookup_singleton_eq. intros H. vm_compute in H. discriminate H.
Qed.

(** C6. The comment [zotero://select/items/OLD see zotero://select/items/REF]
    and the URI [zotero://select/items/NEW]: the text after the first
    token is not kept as it was, its own token is replaced as well. *)
Theorem write_uri_surrounding_text (file : str) :
  run Finder file (lit "zotero://select/items/NEW") false false
    {[ file :=
         Some (lit "zotero://select/items/OLD see zotero://select/items/REF") ]}
  = (inr tt,
     ({[ file :=
           Some (lit "zotero://select/items/NEW see zotero://select/items/NEW")
      ]},
      [Called (get_comments file) None;
       report Replaced file;
       Called
         (set_comments file
            (lit "zotero://select/items/NEW see zotero://select/items/NEW"))
         None])).
Proof.
  rewrite (write_uri_replaced_plain _ file _
             (lit "zotero://select/items/OLD see zotero://select/items/REF"));
    try (vm_compute; reflexivity).
  - rewrite insert_singleton_eq. reflexivity.
  - apply lookup_singleton_eq.
Qed.

(** C10. The test that sends [write_uri] into the replacing branch looks
    for [zotero://select], the pattern replaced is [zotero://] and what
    follows: in the comment [zotero://select/A zotero://open/abc] the
    token [zotero://open/abc], which does not start with
    [zotero://select], is replaced by the URI as well. *)
Theorem write_uri_replaces_other_zotero_tokens (file : str) :
  startswith zotero_select (lit "zotero://open/abc") = false
  /\ matches_here (lit "zotero://open/abc") = true
  /\ run Finder file (lit "zotero://select/C") false false
       {[ file := Some (lit "zotero://select/A zotero://open/abc") ]}
     = (inr tt,
        ({[ file := Some (lit "zotero://select/C zotero://select/C") ]},
         [Called (get_comments file) None;
          report Replaced file;
          Called
            (set_comments file (lit "zotero://select/C zotero://select/C"))
            None])).
Proof.
  split; [reflexivity|]. split; [reflexivity|].
  rewrite (write_uri_replaced_plain _ file _
             (lit "zotero://select/A zotero://open/abc"));
    try (vm_compute; reflexivity).
  - rewrite insert_singleton_eq. reflexivity.
  - apply lookup_singleton_eq.
Qed.

(** ** Invoking twice *)

(** For a URI that is not empty and has no backslash, a second invocation
    finds the URI in the comment the first one left: it says so, makes no
    call but the read, and leaves the comment alone. *)
Lemma write_uri_twice_plain
    (st : gmap str (option str)) (file uri : str) (v : option str) :
  uri <> [] -> plain uri = true ->
  st !! file = Some v ->
  let first := run Finder file uri false false st in
  exception first = None
  /\ run Finder file uri false false (world_after first)
     = (inr tt, (world_after first,
                 [Called (get_comments file) None;
                  report AlreadyPresent file])).
Proof.
  intros Hu Hp Hf first. subst first.
  destruct (present_in uri v) eqn:Hin.
  - (* already there *)
    rewrite (finder_already_present st file uri v false Hf Hin).
    split; [reflexivity|].
    apply (finder_already_present st file uri v false Hf Hin).
  - destruct (present_in zotero_select v) eqn:Hz.
    + (* replaced *)
      destruct v as [c|]; [|discriminate Hz].
      assert (Hzc : contains zotero_select c = true).
      { unfold present_in in Hz. apply andb_prop in Hz. tauto. }
      assert (Huc : contains uri c = false).
      { unfold present_in in Hin. destruct c; [discriminate Hz|].
        exact Hin. }
      rewrite (write_uri_replaced_plain st file uri c Hp Hf Huc Hzc).
      split; [reflexivity|]. unfold world_after. cbn [fst snd].
      eapply finder_already_present; [apply lookup_insert_eq|].
      apply present_in_some; [exact Hu|].
      apply sub_all_contains; [reflexivity | exact Hzc].
    + (* written afresh *)
      rewrite (finder_prepended st file uri v Hf Hin Hz).
      split; [reflexivity|]. unfold world_after. cbn [fst snd].
      eapply finder_already_present; [apply lookup_insert_eq|].
      apply present_in_some; [exact Hu | apply contains_self].
Qed.

(** C5. The comment [zotero://select/X] and the URI [zotero://select/\1],
    invoked twice: [re.sub] reads [\1] as a reference to the matched
    text, so the comment written is not the URI, the second invocation
    does not find the URI in it, says that it replaces, and writes
    again, another comment. *)
Theorem write_uri_twice_template (file : str) :
  run_twice Finder file (lit "zotero://select/\1") false false
    {[ file := Some (lit "zotero://select/X") ]}
  = ((inr tt,
      ({[ file := Some (lit "zotero://select/zotero://select/X") ]},
       [Called (get_comments file) None;
        report Replaced file;
        Called (set_comments file (lit "zotero://select/zotero://select/X"))
          None])),
     (inr tt,
      ({[ file :=
            Some (lit "zotero://select/zotero://select/zotero://select/X") ]},
       [Called (get_comments file) None;
        report Replaced file;
        Called
          (set_comments file
             (lit "zotero://select/zotero://select/zotero://select/X"))
          None]))).
Proof.
  unfold run_twice.
  rewrite (write_uri_replaced _ file _ (lit "zotero://select/X")
             (lit "zotero://select/zotero://select/X"));
    try (vm_compute; reflexivity); [|apply lookup_singleton_eq].
  unfold world_after. cbn [fst snd]. rewrite insert_singleton_eq.
  rewrite (write_uri_replaced _ file _
             (lit "zotero://select/zotero://select/X")
             (lit "zotero://select/zotero://select/zotero://select/X"));
    try (vm_compute; reflexivity); [|apply lookup_singleton_eq].
  rewrite insert_singleton_eq. reflexivity.
Qed.

(** The same with a doubled backslash, which [re.sub] writes as one. *)
Example write_uri_twice_backslash (file : str) :
  snd (run_twice Finder file (lit "zotero://select/a\\b") false false
         {[ file := Some (lit "zotero://select/X") ]})
  = (inr tt,
     ({[ file := Some (lit "zotero://select/a\b") ]},
      [Called (get_comments file) None;
       report Replaced file;
       Called (set_comments file (lit "zotero://select/a\b")) None])).
Proof.
  unfold run_twice.
  rewrite (write_uri_replaced _ file _ (lit "zotero://select/X")
             (lit "zotero://select/a\b"));
    try (vm_compute; reflexivity); [|apply lookup_singleton_eq].
  unfold world_after. cbn [fst snd]. rewrite insert_singleton_eq.
  rewrite (write_uri_replaced _ file _ (lit "zotero://select/a\b")
             (lit "zotero://select/a\b"));
    try (vm_compute; reflexivity); [|apply lookup_singleton_eq].
  rewrite insert_singleton_eq. reflexivity.
Qed.

(** ** The theorems at work *)

Lemma write_uri_already_present_witness :
  item <> []
  /\ shelf (Some (lit "see zotero://select/library/items/ABCD2345")) !! paper
     = Some (Some (lit "see zotero://select/library/items/ABCD2345"))
  /\ contains item (lit "see zotero://select/library/items/ABCD2345") = true
  /\ run Finder paper item true false
       (shelf (Some (lit "see zotero://select/library/items/ABCD2345")))
     = (inr tt,
        (shelf (Some (lit "see zotero://select/library/items/ABCD2345")),
         [Called (get_comments paper) None; report AlreadyPresent paper])).
Proof.
  split; [discriminate|].
  split; [apply lookup_singleton_eq|].
  split; [vm_compute; reflexivity|].
  apply (write_uri_already_present _ paper item
           (lit "see zotero://select/library/items/ABCD2345") true);
    [discriminate | apply lookup_singleton_eq | vm_compute; reflexivity].
Defined.

Lemma write_uri_dry_run_witness :
  raised (fst (on_clear_comments Finder paper (shelf (Some (lit "notes")))))
  = None
  /\ count is_mutating
       (trace (run Finder paper item true true (shelf (Some (lit "notes")))))
     = 0
  /\ trace (run Finder paper item true true (shelf (Some (lit "notes"))))
     = List.filter (fun e => negb (is_mutating e))
         (trace (run Finder paper item false true
                   (shelf (Some (lit "notes")))))
  /\ run Finder paper item true true (shelf (Some (lit "notes")))
     = (inr tt, (shelf (Some (lit "notes")), [report ForcedOverwrite paper]))
  /\ List.filter is_message
       (trace (run Finder paper item false true (shelf (Some (lit "notes")))))
     = [report ForcedOverwrite paper]
  /\ fst (on_get_comments Finder paper
            (shelf (Some (lit "zotero://select/items/OLD notes"))))
     = inr (Some (lit "zotero://select/items/OLD notes"))
  /\ trace (run Finder paper item true false
              (shelf (Some (lit "zotero://select/items/OLD notes"))))
     = [Called (get_comments paper) None; report Replaced paper]
  /\ List.filter is_message
       (trace (run Finder paper item false false
                 (shelf (Some (lit "zotero://select/items/OLD notes")))))
     = [report Replaced paper].
Proof.
  assert (Hc : raised (fst (on_clear_comments Finder paper
                              (shelf (Some (lit "notes"))))) = None)
    by (vm_compute; reflexivity).
  assert (Hg : fst (on_get_comments Finder paper
                      (shelf (Some (lit "zotero://select/items/OLD notes"))))
               = inr (Some (lit "zotero://select/items/OLD notes")))
    by (vm_compute; reflexivity).
  split; [exact Hc|].
  destruct (write_uri_dry_run Finder paper item true
              (shelf (Some (lit "notes")))) as (H1 & _ & _ & H4 & H5 & _).
  destruct (H5 eq_refl) as [H5a H5b].
  split; [exact H1|]. split; [apply H4; intros _; exact Hc|].
  split; [exact H5a|]. split; [exact (H5b Hc)|]. split; [exact Hg|].
  destruct (write_uri_dry_run Finder paper item false
              (shelf (Some (lit "zotero://select/items/OLD notes"))))
    as (_ & _ & _ & _ & _ & H6).
  exact (H6 eq_refl _ Hg).
Defined.

Lemma write_uri_overwrite_witness :
  shelf (Some (lit "notes")) !! paper = Some (Some (lit "notes"))
  /\ run Finder paper item false true (shelf (Some (lit "notes")))
     = (inr tt,
        (<[paper := Some item]> (shelf (Some (lit "notes"))),
         [Called (clear_comments paper) None;
          report ForcedOverwrite paper;
          Called (set_comments paper item) None])).
Proof.
  split; [apply lookup_singleton_eq|].
  apply (write_uri_overwrite _ paper item (Some (lit "notes"))).
  apply lookup_singleton_eq.
Defined.

Lemma write_uri_prepended_witness :
  shelf (Some (lit "notes")) !! paper = Some (Some (lit "notes"))
  /\ contains item (lit "notes") = false
  /\ contains zotero_select (lit "notes") = false
  /\ run Finder paper item false false (shelf (Some (lit "notes")))
     = (inr tt,
        (<[paper := Some item]> (shelf (Some (lit "notes"))),
         [Called (get_comments paper) None;
          report Prepended paper;
          Called (set_comments paper item) None])).
Proof.
  split; [apply lookup_singleton_eq|].
  split; [vm_compute; reflexivity|].
  split; [vm_compute; reflexivity|].
  apply (write_uri_prepended _ paper item (Some (lit "notes")));
    [apply lookup_singleton_eq|].
  right. exists (lit "notes").
  split; [reflexivity|]. split; vm_compute; reflexivity.
Defined.

Lemma write_uri_failure_propagates_witness :
  run LockedFinder paper item false false (shelf None)
  = (inl access_denied,
     (shelf None,
      [Called (get_comments paper) None; report Prepended paper]
      ++ Called (set_comments paper item) (Some access_denied) :: []))
  /\ ([] = ([] : list event)
      /\ (inl access_denied : exn + unit) = inl access_denied
      /\ perform LockedFinder (set_comments paper item)
           (replay LockedFinder
              [Called (get_comments paper) None; report Prepended paper]
              (shelf None))
         = (Some access_denied, shelf None)).
Proof.
  assert (Hrun :
    run LockedFinder paper item false false (shelf None)
    = (inl access_denied,
       (shelf None,
        [Called (get_comments paper) None; report Prepended paper]
        ++ Called (set_comments paper item) (Some access_denied) :: [])))
    by (vm_compute; reflexivity).
  split; [exact Hrun|].
  exact (write_uri_failure_propagates LockedFinder paper item false false
           (shelf None) _ _ _ _ _ _ Hrun).
Defined.

(** * Further properties of [write_uri] *)

(** ** Whatever the Finder does *)

Section Anywhere.

Context {World : Type} (FS : scripts World).

Ltac branches file uri w :=
  unfold run, write_uri, write_back, inform, warn, say, bind, ret, lift,
    call_get_comments, call_set_comments, call_clear_comments; simpl;
  repeat
    match goal with
    | |- context [on_get_comments FS file w] =>
        destruct (on_get_comments FS file w) as [[?e|?v] ?w] eqn:?Hget; simpl
    | |- context [on_clear_comments FS file w] =>
        destruct (on_clear_comments FS file w) as [[?e|[]] ?w] eqn:?Hclear;
        simpl
    | |- context [on_set_comments FS file ?c ?w1] =>
        destruct (on_set_comments FS file c w1) as [[?e|[]] ?w] eqn:?Hset;
        simpl
    | |- context [present_in ?p ?v] =>
        destruct (present_in p v) eqn:?Hin; simpl
    | |- context [re_sub_value ?p ?v] =>
        destruct (re_sub_value p v) as [?e|?c] eqn:?Hsub; simpl
    end.

(** X1. Every script call of an invocation, and every message, is about
    the file it was given: no other path is read, set or cleared. *)
Theorem write_uri_only_this_file file uri dry_run overwrite w :
  Forall (fun e => event_file e = file)
    (trace (run FS file uri dry_run overwrite w)).
Proof.
  destruct dry_run, overwrite; branches file uri w; unfold trace; simpl;
    repeat constructor.
Qed.

(** X2. Without [overwrite] the comment is never cleared, and with
    [overwrite] it is never read. *)
Theorem write_uri_clear_or_read file uri dry_run w :
  count is_clear (trace (run FS file uri dry_run false w)) = 0
  /\ count is_get (trace (run FS file uri dry_run true w)) = 0.
Proof.
  split; destruct dry_run; branches file uri w; reflexivity.
Qed.

(** X3. An invocation says at most one thing, and exactly one when it
    returns without an exception. *)
Theorem write_uri_one_message file uri dry_run overwrite w :
  count is_message (trace (run FS file uri dry_run overwrite w)) <= 1
  /\ (exception (run FS file uri dry_run overwrite w) = None ->
      count is_message (trace (run FS file uri dry_run overwrite w)) = 1).
Proof.
  destruct dry_run, overwrite; branches file uri w;
    unfold count, trace, exception; simpl;
    (split; [lia | intros H; try reflexivity; discriminate H]).
Qed.

(** Finding a [set_comments] call in a known trace. *)
Ltac locate_set file f c x post :=
  match goal with
  | H : _ = ?pre ++ Called (set_comments _ _) _ :: _ |- _ =>
      destruct pre; simpl in H;
      [ inversion H; subst f c x post; simpl;
        refine (conj eq_refl (conj eq_refl (conj eq_refl (conj eq_refl _))));
        first
          [ exists [Called (get_comments file) None], Replaced;
            refine (conj eq_refl (conj _ (or_intror eq_refl))); discriminate
          | exists [Called (get_comments file) None], Prepended;
            refine (conj eq_refl (conj _ (or_introl eq_refl))); discriminate
          | exists [Called (clear_comments file) None], ForcedOverwrite;
            refine (conj eq_refl (conj _ (or_introl eq_refl))); discriminate ]
      | inversion H; subst; clear H; try locate_set file f c x post ]
  | H : [] = ?pre ++ _ :: _ |- _ => destruct pre; discriminate H
  end.

(** X4. A [set_comments] call is the last thing an invocation does, it
    is never made in a dry run, and it comes right after the message;
    that message is never the one of a URI already present, and the
    comment set is the URI itself unless the message is the one of a
    replacement. *)
Theorem write_uri_set_comes_last
    file uri dry_run overwrite w r w' pre f c x post :
  run FS file uri dry_run overwrite w
  = (r, (w', pre ++ Called (set_comments f c) x :: post)) ->
  post = [] /\ f = file /\ dry_run = false /\ x = raised r
  /\ exists pre' o,
       pre = pre' ++ [report o file]
       /\ o <> AlreadyPresent /\ (c = uri \/ o = Replaced).
Proof.
  destruct dry_run, overwrite; branches file uri w; intros Heq;
    inversion Heq; subst; clear Heq; locate_set file f c x post.
Qed.

(** X5. An exception that leaves an invocation was raised by a script
    call, the last event of the trace, or it is the error of [re.sub] on
    a URI with a backslash that is no template, raised in the replacing
    branch after its message. [re.sub] is never handed [None]. *)
Theorem write_uri_exceptions file uri dry_run overwrite w e :
  exception (run FS file uri dry_run overwrite w) = Some e ->
  (exists pre c,
     trace (run FS file uri dry_run overwrite w) = pre ++ [Called c (Some e)])
  \/ (e = TemplateError /\ overwrite = false /\ plain uri = false
      /\ trace (run FS file uri dry_run overwrite w)
         = [Called (get_comments file) None; report Replaced file]).
Proof.
  assert (Hre : forall v e0,
             present_in zotero_select v = true ->
             re_sub_value uri v = inl e0 ->
             e0 = TemplateError /\ plain uri = false).
  { intros [s|] e0 Hz Hs; [|discriminate Hz].
    simpl in Hs. unfold re_sub in Hs.
    destruct (parse_template uri) eqn:Hp; [discriminate Hs|].
    split; [congruence|].
    destruct (plain uri) eqn:Hpl; [|reflexivity].
    rewrite (parse_template_plain uri Hpl) in Hp. discriminate Hp. }
  destruct dry_run, overwrite; branches file uri w;
    unfold exception, trace; simpl; intros H; inversion H; subst;
    try (left; eexists [], _; reflexivity);
    try (left; eexists [_; _], _; reflexivity);
    try (right;
         match goal with
         | Hz : present_in zotero_select ?v = true,
           Hs : re_sub_value uri ?v = inl _ |- _ =>
             destruct (Hre _ _ Hz Hs) as [-> Hpl]
         end;
         repeat split; assumption).
Qed.

(** X13. A dry run rehearses the real one: an exception that leaves the
    dry run leaves the real run as well, and when the dry run returns,
    the real run can only fail in the [set_comments] or [clear_comments]
    call the dry run did not make. *)
Theorem write_uri_dry_run_rehearses file uri overwrite w e :
  (exception (run FS file uri true overwrite w) = Some e ->
   overwrite = false
   /\ exception (run FS file uri false overwrite w) = Some e)
  /\ (exception (run FS file uri true overwrite w) = None ->
      exception (run FS file uri false overwrite w) = Some e ->
      exists pre c,
        trace (run FS file uri false overwrite w)
        = pre ++ [Called c (Some e)]
        /\ is_mutating (Called c (Some e)) = true).
Proof.
  split.
  - destruct overwrite; [discriminate|].
    branches file uri w; unfold exception; simpl; intros H;
      first [discriminate H | split; [reflexivity | exact H]].
  - destruct overwrite; branches file uri w;
      unfold exception, trace; simpl; intros Hd H;
      try discriminate Hd; inversion H; subst;
      first [ eexists [], _; split; reflexivity
            | eexists [_; _], _; split; reflexivity ].
Qed.

End Anywhere.

(** ** The substring test and the pattern *)

Lemma startswith_inv p s : startswith p s = true -> exists r, s = p ++ r.
Proof.
  revert s. induction p as [|a p IH]; intros s H; [exists s; reflexivity|].
  destruct s as [|b s]; [discriminate H|]. cbn [startswith] in H.
  apply andb_prop in H as [Hab H]. apply N.eqb_eq in Hab. subst b.
  destruct (IH s H) as [r ->]. exists r. reflexivity.
Qed.

(** X16. [p in s] holds exactly when [s] is some text, then [p], then
    some text. *)
Theorem contains_iff (p s : str) :
  contains p s = true <-> exists l r, s = l ++ p ++ r.
Proof.
  split; [|intros (l & r & ->); apply contains_infix].
  induction s as [|a s IH]; cbn [contains]; intros H.
  - rewrite orb_false_r in H. apply startswith_inv in H as [r Hr].
    exists [], r. exact Hr.
  - apply orb_prop in H as [H|H].
    + apply startswith_inv in H as [r Hr]. exists [], r. exact Hr.
    + destruct (IH H) as (l & r & ->). exists (a :: l), r. reflexivity.
Qed.

Lemma take_drop_nonspace s : take_nonspace s ++ drop_nonspace s = s.
Proof.
  induction s as [|c s IH]; [reflexivity|]. cbn [take_nonspace drop_nonspace].
  destruct (is_space c); [reflexivity|]. cbn [app]. rewrite IH. reflexivity.
Qed.

Lemma take_nonspace_nonspace s : nonspace (take_nonspace s) = true.
Proof.
  unfold nonspace. induction s as [|c s IH]; [reflexivity|].
  cbn [take_nonspace]. destruct (is_space c) eqn:Hc; [reflexivity|].
  cbn [forallb]. rewrite Hc, IH. reflexivity.
Qed.

Lemma drop_nonspace_boundary s : at_boundary (drop_nonspace s) = true.
Proof.
  induction s as [|c s IH]; [reflexivity|]. cbn [drop_nonspace].
  destruct (is_space c) eqn:Hc; [exact Hc | exact IH].
Qed.

(** The ten characters a match starts with. *)
Lemma matches_here_head s :
  matches_here s = true ->
  exists c r, s = zotero_scheme ++ c :: r /\ is_space c = false.
Proof.
  unfold matches_here. intros H. apply andb_prop in H as [Hs Hc].
  apply startswith_inv in Hs as [r ->].
  change (List.skipn 9 (zotero_scheme ++ r)) with r in Hc.
  destruct r as [|c r]; [discriminate Hc|].
  exists c, r. split; [reflexivity | apply negb_true_iff, Hc].
Qed.

(** X18. What the pattern matches at a place where it matches: the text
    from there up to the next white space or the end, which starts with
    [zotero://], has at least one character more, and has no white space
    in it. *)
Theorem matched_text_shape (s : str) :
  matches_here s = true ->
  s = matched_text s ++ drop_nonspace s
  /\ scheme_token (matched_text s) = true
  /\ at_boundary (drop_nonspace s) = true.
Proof.
  intros H. unfold matched_text.
  split; [symmetry; apply take_drop_nonspace|].
  split; [|apply drop_nonspace_boundary].
  unfold scheme_token. rewrite take_nonspace_nonspace, andb_true_r.
  destruct (matches_here_head s H) as (c & r & -> & Hc).
  assert (Ht : take_nonspace (zotero_scheme ++ c :: r)
               = zotero_scheme ++ c :: take_nonspace r).
  { change (zotero_scheme ++ c :: r)
      with (122 :: 111 :: 116 :: 101 :: 114 :: 111 :: 58 :: 47 :: 47
            :: c :: r)%N.
    cbn [take_nonspace]. rewrite Hc. reflexivity. }
  rewrite Ht. rewrite startswith_app. reflexivity.
Qed.

Lemma matches_here_token tok post :
  scheme_token tok = true -> matches_here (tok ++ post) = true.
Proof.
  unfold scheme_token. intros H.
  apply andb_prop in H as [H Hlen]. apply andb_prop in H as [Hs Hn].
  apply startswith_inv in Hs as [r ->].
  destruct r as [|c r]; [discriminate Hlen|].
  unfold nonspace in Hn. rewrite forallb_app in Hn.
  apply andb_prop in Hn as [_ Hn]. cbn [forallb] in Hn.
  apply andb_prop in Hn as [Hc _].
  unfold matches_here. rewrite <- app_assoc, startswith_app.
  change (List.skipn 9 (zotero_scheme ++ (c :: r) ++ post))
    with (c :: r ++ post).
  exact Hc.
Qed.

Lemma sub_all_leading_token f tok post :
  scheme_token tok = true -> at_boundary post = true ->
  sub_all f (tok ++ post) = f tok ++ sub_all f post.
Proof.
  intros Hk Hp. pose proof (matches_here_token tok post Hk) as Hm.
  assert (Ht : nonspace tok = true).
  { unfold scheme_token in Hk. apply andb_prop in Hk as [Hk _].
    apply andb_prop in Hk as [_ Hk]. exact Hk. }
  destruct tok as [|a tok]; [discriminate Hk|].
  change ((a :: tok) ++ post) with (a :: (tok ++ post)) in *.
  cbn [sub_all]. rewrite Hm. unfold matched_text.
  change (a :: (tok ++ post)) with ((a :: tok) ++ post).
  rewrite (take_nonspace_token _ _ Ht Hp).
  unfold nonspace in Ht. cbn [forallb] in Ht. apply andb_prop in Ht as [_ Ht].
  rewrite (drop_nonspace_token _ _ Ht Hp). reflexivity.
Qed.

Lemma sub_all_tokens2 f pre tok1 mid tok2 post :
  contains zotero_scheme pre = false -> ends_in_space pre = true ->
  scheme_token tok1 = true ->
  mid <> [] -> at_boundary mid = true ->
  contains zotero_scheme mid = false -> ends_in_space mid = true ->
  scheme_token tok2 = true ->
  at_boundary post = true ->
  sub_all f (pre ++ tok1 ++ mid ++ tok2 ++ post)
  = pre ++ f tok1 ++ mid ++ f tok2 ++ sub_all f post.
Proof.
  intros Hc He Hk1 Hne Hb Hcm Hem Hk2 Hp.
  assert (Hbm : at_boundary (mid ++ tok2 ++ post) = true).
  { destruct mid as [|c mid]; [congruence | exact Hb]. }
  rewrite (sub_all_skip f pre _ Hc He).
  rewrite (sub_all_leading_token f tok1 _ Hk1 Hbm).
  rewrite (sub_all_skip f mid _ Hcm Hem).
  rewrite (sub_all_leading_token f tok2 post Hk2 Hp). reflexivity.
Qed.

(** ** On the Finder *)

Lemma finder_overwrite
    (st : gmap str (option str)) (file uri : str) (v : option str) :
  st !! file = Some v ->
  run Finder file uri false true st
  = (inr tt, (<[file := Some uri]> st,
              [Called (clear_comments file) None;
               report ForcedOverwrite file;
               Called (set_comments file uri) None])).
Proof.
  intros Hf.
  rewrite (run_overwrite Finder file uri st tt (<[file := None]> st)
             (inr tt) (<[file := Some uri]> st)).
  - reflexivity.
  - apply (finder_clear_ok st file v Hf).
  - rewrite (finder_set_ok (<[file := None]> st) file None).
    + rewrite insert_insert_eq. reflexivity.
    + apply lookup_insert_eq.
Qed.

(** What a real run leaves on a file that exists, for a URI that is not
    empty and has no backslash. *)
Lemma finder_run_leaves_uri
    (st : gmap str (option str)) (file uri : str) (v : option str)
    (overwrite : bool) :
  uri <> [] -> plain uri = true ->
  st !! file = Some v ->
  exception (run Finder file uri false overwrite st) = None
  /\ exists c,
       world_after (run Finder file uri false overwrite st) !! file
       = Some (Some c)
       /\ contains uri c = true.
Proof.
  intros Hu Hp Hf. destruct overwrite.
  - rewrite (finder_overwrite st file uri v Hf).
    split; [reflexivity|]. exists uri.
    split; [apply lookup_insert_eq | apply contains_self].
  - destruct (present_in uri v) eqn:Hin.
    + rewrite (finder_already_present st file uri v false Hf Hin).
      split; [reflexivity|].
      destruct v as [c|]; [|discriminate Hin]. exists c.
      split; [exact Hf|]. unfold present_in in Hin.
      apply andb_prop in Hin. tauto.
    + destruct (present_in zotero_select v) eqn:Hz.
      * destruct v as [c|]; [|discriminate Hz].
        assert (Hzc : contains zotero_select c = true).
        { unfold present_in in Hz. apply andb_prop in Hz. tauto. }
        assert (Huc : contains uri c = false).
        { unfold present_in in Hin. destruct c; [discriminate Hz|].
          exact Hin. }
        rewrite (write_uri_replaced_plain st file uri c Hp Hf Huc Hzc).
        split; [reflexivity|]. exists (sub_all (fun _ => uri) c).
        split; [apply lookup_insert_eq|].
        apply sub_all_contains; [reflexivity | exact Hzc].
      * rewrite (finder_prepended st file uri v Hf Hin Hz).
        split; [reflexivity|]. exists uri.
        split; [apply lookup_insert_eq | apply contains_self].
Qed.

(** X8. After a real run on a file that exists, with or without
    [overwrite], no exception has been raised and the comment of the file
    has the URI in it, for a URI that is not empty and has no
    backslash. *)
Theorem write_uri_leaves_uri
    (st : gmap str (option str)) (file uri : str) (v : option str)
    (overwrite : bool) :
  uri <> [] -> plain uri = true ->
  st !! file = Some v ->
  exception (run Finder file uri false overwrite st) = None
  /\ exists c,
       world_after (run Finder file uri false overwrite st) !! file
       = Some (Some c)
       /\ contains uri c = true.
Proof. apply finder_run_leaves_uri. Qed.

(** X9. After such a run, with or without [overwrite], an invocation
    without [overwrite] finds the URI present: it only reads, says so,
    and changes nothing, dry run or not. *)
Theorem write_uri_then_present
    (st : gmap str (option str)) (file uri : str) (v : option str)
    (overwrite dry_run : bool) :
  uri <> [] -> plain uri = true ->
  st !! file = Some v ->
  run Finder file uri dry_run false
    (world_after (run Finder file uri false overwrite st))
  = (inr tt,
     (world_after (run Finder file uri false overwrite st),
      [Called (get_comments file) None; report AlreadyPresent file])).
Proof.
  intros Hu Hp Hf.
  destruct (finder_run_leaves_uri st file uri v overwrite Hu Hp Hf)
    as (_ & c & Hc & Hin).
  apply (finder_already_present _ file uri (Some c) dry_run Hc).
  apply present_in_some; assumption.
Qed.

(** X10. With [overwrite] the URI is not looked for: invoked twice, the
    second invocation clears and sets again, and leaves what the first
    one left. *)
Theorem write_uri_overwrite_twice
    (st : gmap str (option str)) (file uri : str) (v : option str) :
  st !! file = Some v ->
  run_twice Finder file uri false true st
  = ((inr tt, (<[file := Some uri]> st,
               [Called (clear_comments file) None;
                report ForcedOverwrite file;
                Called (set_comments file uri) None])),
     (inr tt, (<[file := Some uri]> st,
               [Called (clear_comments file) None;
                report ForcedOverwrite file;
                Called (set_comments file uri) None]))).
Proof.
  intros Hf. unfold run_twice.
  rewrite (finder_overwrite st file uri v Hf).
  unfold world_after. cbn [fst snd].
  rewrite (finder_overwrite _ file uri (Some uri) (lookup_insert_eq _ _ _)).
  rewrite insert_insert_eq. reflexivity.
Qed.

(** X11. A comment with one Zotero URI in it, a token that starts with
    [zotero://select] and stands between white space or the ends of the
    comment: a URI without a backslash takes its place, and the text
    before and after it is kept. *)
Theorem write_uri_one_token_in_place
    (st : gmap str (option str)) (file uri pre tok post : str) :
  plain uri = true ->
  st !! file = Some (Some (pre ++ tok ++ post)) ->
  contains uri (pre ++ tok ++ post) = false ->
  contains zotero_scheme pre = false -> ends_in_space pre = true ->
  startswith zotero_select tok = true ->
  nonspace tok = true -> at_boundary post = true ->
  contains zotero_scheme post = false ->
  run Finder file uri false false st
  = (inr tt, (<[file := Some (pre ++ uri ++ post)]> st,
              [Called (get_comments file) None;
               report Replaced file;
               Called (set_comments file (pre ++ uri ++ post)) None])).
Proof. apply write_uri_replaces_single_uri. Qed.

(** X12. A comment with two tokens the pattern matches, one of them at
    least with [zotero://select] in it: a URI without a backslash takes
    the place of both, whether or not they start with
    [zotero://select]. *)
Theorem write_uri_every_token_replaced
    (st : gmap str (option str)) (file uri pre tok1 mid tok2 post : str) :
  plain uri = true ->
  st !! file = Some (Some (pre ++ tok1 ++ mid ++ tok2 ++ post)) ->
  contains uri (pre ++ tok1 ++ mid ++ tok2 ++ post) = false ->
  contains zotero_select (pre ++ tok1 ++ mid ++ tok2 ++ post) = true ->
  contains zotero_scheme pre = false -> ends_in_space pre = true ->
  scheme_token tok1 = true ->
  mid <> [] -> at_boundary mid = true ->
  contains zotero_scheme mid = false -> ends_in_space mid = true ->
  scheme_token tok2 = true ->
  at_boundary post = true -> contains zotero_scheme post = false ->
  run Finder file uri false false st
  = (inr tt,
     (<[file := Some (pre ++ uri ++ mid ++ uri ++ post)]> st,
      [Called (get_comments file) None;
       report Replaced file;
       Called (set_comments file (pre ++ uri ++ mid ++ uri ++ post)) None])).
Proof.
  intros Hp Hf Hu Hz Hc He Hk1 Hne Hb Hcm Hem Hk2 Hbp Hcp.
  rewrite (write_uri_replaced_plain st file uri _ Hp Hf Hu Hz).
  rewrite (sub_all_tokens2 _ pre tok1 mid tok2 post
             Hc He Hk1 Hne Hb Hcm Hem Hk2 Hbp).
  rewrite (sub_all_no_scheme _ post Hcp). reflexivity.
Qed.

(** X6. Whatever happens in an invocation, exception or not, the other
    files are as they were: those that have a comment keep it, and a path
    that names no file still names none. *)
Theorem write_uri_other_files
    (st : gmap str (option str)) (file uri other : str)
    (dry_run overwrite : bool) :
  other <> file ->
  world_after (run Finder file uri dry_run overwrite st) !! other
  = st !! other.
Proof.
  intros Hne.
  assert (Hins : forall (c : option str) (m : gmap str (option str)),
             <[file := c]> m !! other = m !! other).
  { intros c m. apply lookup_insert_ne. congruence. }
  destruct (st !! file) as [v|] eqn:Hf.
  - destruct overwrite.
    + destruct dry_run; [reflexivity|].
      rewrite (finder_overwrite st file uri v Hf). apply Hins.
    + pose proof (finder_get_ok st file v Hf) as Hg.
      destruct (present_in uri v) eqn:Hin.
      { rewrite (run_already_present Finder file uri st dry_run v st Hg Hin).
        reflexivity. }
      destruct (present_in zotero_select v) eqn:Hz.
      * destruct (re_sub_value uri v) as [e|c] eqn:Hs.
        { rewrite (run_replaced_raises Finder file uri st dry_run v st e
                     Hg Hin Hz Hs). reflexivity. }
        destruct dry_run.
        { rewrite (run_replaced_dry Finder file uri st v st c Hg Hin Hz Hs).
          reflexivity. }
        rewrite (run_replaced Finder file uri st v st c (inr tt)
                   (<[file := Some c]> st) Hg Hin Hz Hs
                   (finder_set_ok st file v Hf c)).
        apply Hins.
      * destruct dry_run.
        { rewrite (run_prepended_dry Finder file uri st v st Hg Hin Hz).
          reflexivity. }
        rewrite (finder_prepended st file uri v Hf Hin Hz). apply Hins.
  - assert (Hg : on_get_comments Finder file st = (inl no_such_file, st)).
    { simpl. unfold finder_get. rewrite Hf. reflexivity. }
    assert (Hc : on_clear_comments Finder file st = (inl no_such_file, st)).
    { simpl. unfold finder_clear. rewrite Hf. reflexivity. }
    destruct overwrite.
    + destruct dry_run; [reflexivity|].
      rewrite (run_overwrite_clear_raises Finder file uri st _ st Hc).
      reflexivity.
    + rewrite (run_get_raises Finder file uri st dry_run _ st Hg).
      reflexivity.
Qed.

(** X7. A path that names no file: a dry run with [overwrite] makes no
    call at all and says that it overwrites; every other invocation ends
    with the exception of its first call, says nothing, and in no case
    does the Finder change. *)
Theorem write_uri_no_such_file
    (st : gmap str (option str)) (file uri : str)
    (dry_run overwrite : bool) :
  st !! file = None ->
  run Finder file uri dry_run overwrite st
  = if overwrite
    then if dry_run
         then (inr tt, (st, [report ForcedOverwrite file]))
         else (inl no_such_file,
               (st, [Called (clear_comments file) (Some no_such_file)]))
    else (inl no_such_file,
          (st, [Called (get_comments file) (Some no_such_file)])).
Proof.
  intros Hf.
  assert (Hg : on_get_comments Finder file st = (inl no_such_file, st)).
  { simpl. unfold finder_get. rewrite Hf. reflexivity. }
  assert (Hc : on_clear_comments Finder file st = (inl no_such_file, st)).
  { simpl. unfold finder_clear. rewrite Hf. reflexivity. }
  destruct overwrite.
  - destruct dry_run; [reflexivity|].
    apply (run_overwrite_clear_raises Finder file uri st _ st Hc).
  - apply (run_get_raises Finder file uri st dry_run _ st Hg).
Qed.

(** X14. Linking a file anew: on a file without a comment, an invocation
    with a first URI, which starts with [zotero://select] and has no white
    space, and then one with a second URI, which has no backslash and is
    not part of the first, leave the second URI alone as the comment; the
    second invocation says that it replaces. *)
Theorem write_uri_relink
    (st : gmap str (option str)) (file uri1 uri2 : str) (v : option str) :
  st !! file = Some v -> truthy v = false ->
  startswith zotero_select uri1 = true -> nonspace uri1 = true ->
  plain uri2 = true -> contains uri2 uri1 = false ->
  run Finder file uri1 false false st
  = (inr tt, (<[file := Some uri1]> st,
              [Called (get_comments file) None;
               report Prepended file;
               Called (set_comments file uri1) None]))
  /\ run Finder file uri2 false false
       (world_after (run Finder file uri1 false false st))
     = (inr tt, (<[file := Some uri2]> st,
                 [Called (get_comments file) None;
                  report Replaced file;
                  Called (set_comments file uri2) None])).
Proof.
  intros Hf Hv Hs Hn Hp Hc.
  assert (H1 : run Finder file uri1 false false st
               = (inr tt, (<[file := Some uri1]> st,
                           [Called (get_comments file) None;
                            report Prepended file;
                            Called (set_comments file uri1) None]))).
  { apply (finder_prepended st file uri1 v Hf);
      apply present_in_truthy, Hv. }
  split; [exact H1|]. rewrite H1. unfold world_after. cbn [fst snd].
  pose proof (write_uri_replaces_single_uri (<[file := Some uri1]> st)
                file uri2 [] uri1 []) as H2.
  cbn [app] in H2. rewrite !app_nil_r in H2.
  rewrite H2; try reflexivity; try assumption.
  - rewrite insert_insert_eq. reflexivity.
  - apply lookup_insert_eq.
Qed.

(** X15. The empty URI: it is part of every comment that is not empty,
    so the invocation says that the URI is already present and writes
    nothing; on a file without a comment it sets the empty comment. *)
Theorem write_uri_empty_uri
    (st : gmap str (option str)) (file : str) (v : option str)
    (dry_run : bool) :
  st !! file = Some v ->
  run Finder file [] dry_run false st
  = if truthy v
    then (inr tt, (st, [Called (get_comments file) None;
                        report AlreadyPresent file]))
    else if dry_run
    then (inr tt, (st, [Called (get_comments file) None;
                        report Prepended file]))
    else (inr tt, (<[file := Some []]> st,
                   [Called (get_comments file) None;
                    report Prepended file;
                    Called (set_comments file []) None])).
Proof.
  intros Hf. pose proof (finder_get_ok st file v Hf) as Hg.
  destruct (truthy v) eqn:Hv.
  - apply (finder_already_present st file [] v dry_run Hf).
    destruct v as [[|a c]|]; try discriminate Hv. reflexivity.
  - pose proof (present_in_truthy [] v Hv) as Hu.
    pose proof (present_in_truthy zotero_select v Hv) as Hz.
    destruct dry_run.
    + apply (run_prepended_dry Finder file [] st v st Hg Hu Hz).
    + apply (finder_prepended st file [] v Hf Hu Hz).
Qed.

(** ** The further properties at work *)

Lemma write_uri_one_message_witness :
  exception (run Finder paper item false false (shelf None)) = None
  /\ count is_message (trace (run Finder paper item false false (shelf None)))
     = 1.
Proof.
  assert (H : exception (run Finder paper item false false (shelf None))
              = None) by (vm_compute; reflexivity).
  split; [exact H|].
  exact (proj2 (write_uri_one_message Finder paper item false false
                  (shelf None)) H).
Defined.

Lemma write_uri_set_comes_last_witness :
  run Finder paper item false false (shelf None)
  = (inr tt,
     (shelf (Some item),
      [Called (get_comments paper) None; report Prepended paper]
      ++ Called (set_comments paper item) None :: []))
  /\ ([] = ([] : list event) /\ paper = paper /\ false = false
      /\ None = raised (inr tt : exn + unit)
      /\ exists pre' o,
           [Called (get_comments paper) None; report Prepended paper]
           = pre' ++ [report o paper]
           /\ o <> AlreadyPresent /\ (item = item \/ o = Replaced)).
Proof.
  assert (Hrun :
    run Finder paper item false false (shelf None)
    = (inr tt,
       (shelf (Some item),
        [Called (get_comments paper) None; report Prepended paper]
        ++ Called (set_comments paper item) None :: [])))
    by (vm_compute; reflexivity).
  split; [exact Hrun|].
  exact (write_uri_set_comes_last Finder paper item false false
           (shelf None) _ _ _ _ _ _ _ Hrun).
Defined.

Lemma write_uri_exceptions_witness :
  exception (run LockedFinder paper item false true (shelf None))
  = Some access_denied
  /\ ((exists pre c,
         trace (run LockedFinder paper item false true (shelf None))
         = pre ++ [Called c (Some access_denied)])
      \/ (access_denied = TemplateError /\ true = false
          /\ plain item = false
          /\ trace (run LockedFinder paper item false true (shelf None))
             = [Called (get_comments paper) None; report Replaced paper])).
Proof.
  assert (H : exception (run LockedFinder paper item false true (shelf None))
              = Some access_denied) by (vm_compute; reflexivity).
  split; [exact H|].
  exact (write_uri_exceptions LockedFinder paper item false true
           (shelf None) access_denied H).
Defined.

Lemma write_uri_other_files_witness :
  lit "/Users/me/other.pdf" <> paper
  /\ world_after
       (run Finder paper item false true
          (<[lit "/Users/me/other.pdf" := Some (lit "keep")]>
             (shelf (Some (lit "notes")))))
     !! lit "/Users/me/other.pdf"
     = <[lit "/Users/me/other.pdf" := Some (lit "keep")]>
         (shelf (Some (lit "notes")))
       !! lit "/Users/me/other.pdf".
Proof.
  assert (H : lit "/Users/me/other.pdf" <> paper)
    by (intros H; vm_compute in H; discriminate H).
  split; [exact H|].
  exact (write_uri_other_files _ paper item _ false true H).
Defined.

Lemma write_uri_no_such_file_witness :
  (∅ : gmap str (option str)) !! paper = None
  /\ run Finder paper item true true ∅
     = (inr tt, (∅, [report ForcedOverwrite paper]))
  /\ run Finder paper item false false ∅
     = (inl no_such_file,
        (∅, [Called (get_comments paper) (Some no_such_file)])).
Proof.
  assert (H : (∅ : gmap str (option str)) !! paper = None)
    by apply lookup_empty.
  split; [exact H|]. split.
  - exact (write_uri_no_such_file ∅ paper item true true H).
  - exact (write_uri_no_such_file ∅ paper item false false H).
Defined.

Lemma write_uri_leaves_uri_witness :
  item <> [] /\ plain item = true
  /\ shelf (Some (lit "notes")) !! paper = Some (Some (lit "notes"))
  /\ (exception (run Finder paper item false false
                   (shelf (Some (lit "notes")))) = None
      /\ exists c,
           world_after (run Finder paper item false false
                          (shelf (Some (lit "notes")))) !! paper
           = Some (Some c)
           /\ contains item c = true).
Proof.
  assert (H1 : item <> []) by discriminate.
  assert (H2 : plain item = true) by (vm_compute; reflexivity).
  assert (H3 : shelf (Some (lit "notes")) !! paper
               = Some (Some (lit "notes"))) by apply lookup_singleton_eq.
  repeat (split; [assumption|]).
  exact (write_uri_leaves_uri _ paper item _ false H1 H2 H3).
Defined.

Lemma write_uri_then_present_witness :
  item <> [] /\ plain item = true
  /\ shelf (Some (lit "notes")) !! paper = Some (Some (lit "notes"))
  /\ run Finder paper item true false
       (world_after (run Finder paper item false true
                       (shelf (Some (lit "notes")))))
     = (inr tt,
        (world_after (run Finder paper item false true
                        (shelf (Some (lit "notes")))),
         [Called (get_comments paper) None; report AlreadyPresent paper])).
Proof.
  assert (H1 : item <> []) by discriminate.
  assert (H2 : plain item = true) by (vm_compute; reflexivity).
  assert (H3 : shelf (Some (lit "notes")) !! paper
               = Some (Some (lit "notes"))) by apply lookup_singleton_eq.
  repeat (split; [assumption|]).
  exact (write_uri_then_present _ paper item _ true true H1 H2 H3).
Defined.

Lemma write_uri_overwrite_twice_witness :
  shelf (Some item) !! paper = Some (Some item)
  /\ run_twice Finder paper item false true (shelf (Some item))
     = ((inr tt, (<[paper := Some item]> (shelf (Some item)),
                  [Called (clear_comments paper) None;
                   report ForcedOverwrite paper;
                   Called (set_comments paper item) None])),
        (inr tt, (<[paper := Some item]> (shelf (Some item)),
                  [Called (clear_comments paper) None;
                   report ForcedOverwrite paper;
                   Called (set_comments paper item) None]))).
Proof.
  assert (H : shelf (Some item) !! paper = Some (Some item))
    by apply lookup_singleton_eq.
  split; [exact H|].
  exact (write_uri_overwrite_twice _ paper item _ H).
Defined.

Lemma write_uri_one_token_in_place_witness :
  plain item = true
  /\ shelf (Some (lit "see " ++ lit "zotero://select/items/OLD"
                  ++ lit " for this")) !! paper
     = Some (Some (lit "see " ++ lit "zotero://select/items/OLD"
                   ++ lit " for this"))
  /\ contains item (lit "see " ++ lit "zotero://select/items/OLD"
                    ++ lit " for this") = false
  /\ contains zotero_scheme (lit "see ") = false
  /\ ends_in_space (lit "see ") = true
  /\ startswith zotero_select (lit "zotero://select/items/OLD") = true
  /\ nonspace (lit "zotero://select/items/OLD") = true
  /\ at_boundary (lit " for this") = true
  /\ contains zotero_scheme (lit " for this") = false
  /\ run Finder paper item false false
       (shelf (Some (lit "see " ++ lit "zotero://select/items/OLD"
                     ++ lit " for this")))
     = (inr tt,
        (<[paper := Some (lit "see " ++ item ++ lit " for this")]>
           (shelf (Some (lit "see " ++ lit "zotero://select/items/OLD"
                         ++ lit " for this"))),
         [Called (get_comments paper) None;
          report Replaced paper;
          Called (set_comments paper (lit "see " ++ item ++ lit " for this"))
            None])).
Proof.
  assert (H : shelf (Some (lit "see " ++ lit "zotero://select/items/OLD"
                           ++ lit " for this")) !! paper
              = Some (Some (lit "see " ++ lit "zotero://select/items/OLD"
                            ++ lit " for this")))
    by apply lookup_singleton_eq.
  split; [vm_compute; reflexivity|]. split; [exact H|].
  repeat (split; [vm_compute; reflexivity|]).
  apply (write_uri_one_token_in_place _ paper item (lit "see ")
           (lit "zotero://select/items/OLD") (lit " for this"));
    first [exact H | vm_compute; reflexivity].
Defined.

Lemma write_uri_every_token_replaced_witness :
  plain item = true
  /\ shelf (Some ([] ++ lit "zotero://select/A" ++ lit " "
                  ++ lit "zotero://open/abc" ++ [])) !! paper
     = Some (Some ([] ++ lit "zotero://select/A" ++ lit " "
                   ++ lit "zotero://open/abc" ++ []))
  /\ scheme_token (lit "zotero://select/A") = true
  /\ lit " " <> []
  /\ scheme_token (lit "zotero://open/abc") = true
  /\ run Finder paper item false false
       (shelf (Some ([] ++ lit "zotero://select/A" ++ lit " "
                     ++ lit "zotero://open/abc" ++ [])))
     = (inr tt,
        (<[paper := Some ([] ++ item ++ lit " " ++ item ++ [])]>
           (shelf (Some ([] ++ lit "zotero://select/A" ++ lit " "
                         ++ lit "zotero://open/abc" ++ []))),
         [Called (get_comments paper) None;
          report Replaced paper;
          Called (set_comments paper ([] ++ item ++ lit " " ++ item ++ []))
            None])).
Proof.
  assert (H : shelf (Some ([] ++ lit "zotero://select/A" ++ lit " "
                           ++ lit "zotero://open/abc" ++ [])) !! paper
              = Some (Some ([] ++ lit "zotero://select/A" ++ lit " "
                            ++ lit "zotero://open/abc" ++ [])))
    by apply lookup_singleton_eq.
  split; [vm_compute; reflexivity|]. split; [exact H|].
  split; [vm_compute; reflexivity|]. split; [discriminate|].
  split; [vm_compute; reflexivity|].
  apply (write_uri_every_token_replaced _ paper item []
           (lit "zotero://select/A") (lit " ") (lit "zotero://open/abc") []);
    first [exact H | discriminate | vm_compute; reflexivity].
Defined.

Lemma write_uri_relink_witness :
  shelf None !! paper = Some None /\ truthy None = false
  /\ startswith zotero_select (lit "zotero://select/items/OLD") = true
  /\ nonspace (lit "zotero://select/items/OLD") = true
  /\ plain item = true
  /\ contains item (lit "zotero://select/items/OLD") = false
  /\ run Finder paper item false false
       (world_after (run Finder paper (lit "zotero://select/items/OLD")
                       false false (shelf None)))
     = (inr tt, (<[paper := Some item]> (shelf None),
                 [Called (get_comments paper) None;
                  report Replaced paper;
                  Called (set_comments paper item) None])).
Proof.
  assert (H : shelf None !! paper = Some None) by apply lookup_singleton_eq.
  split; [exact H|].
  repeat (split; [vm_compute; reflexivity|]).
  apply (write_uri_relink _ paper (lit "zotero://select/items/OLD") item None);
    first [exact H | vm_compute; reflexivity].
Defined.

Lemma write_uri_empty_uri_witness :
  shelf (Some (lit "notes")) !! paper = Some (Some (lit "notes"))
  /\ run Finder paper [] false false (shelf (Some (lit "notes")))
     = (inr tt, (shelf (Some (lit "notes")),
                 [Called (get_comments paper) None;
                  report AlreadyPresent paper])).
Proof.
  assert (H : shelf (Some (lit "notes")) !! paper
              = Some (Some (lit "notes"))) by apply lookup_singleton_eq.
  split; [exact H|].
  exact (write_uri_empty_uri _ paper _ false H).
Defined.

Lemma contains_iff_witness :
  contains (lit "select") zotero_select = true
  /\ exists l r, zotero_select = l ++ lit "select" ++ r.
Proof.
  assert (H : contains (lit "select") zotero_select = true)
    by (vm_compute; reflexivity).
  split; [exact H|].
  exact (proj1 (contains_iff (lit "select") zotero_select) H).
Defined.

Lemma matched_text_shape_witness :
  matches_here (lit "zotero://select/A, and more") = true
  /\ (lit "zotero://select/A, and more"
      = matched_text (lit "zotero://select/A, and more")
        ++ drop_nonspace (lit "zotero://select/A, and more")
      /\ scheme_token (matched_text (lit "zotero://select/A, and more"))
         = true
      /\ at_boundary (drop_nonspace (lit "zotero://select/A, and more"))
         = true).
Proof.
  assert (H : matches_here (lit "zotero://select/A, and more") = true)
    by (vm_compute; reflexivity).
  split; [exact H|].
  exact (matched_text_shape _ H).
Defined.

Lemma write_uri_dry_run_rehearses_witness :
  exception (run LockedFinder paper item true true (shelf None)) = None
  /\ exception (run LockedFinder paper item false true (shelf None))
     = Some access_denied
  /\ exists pre c,
       trace (run LockedFinder paper item false true (shelf None))
       = pre ++ [Called c (Some access_denied)]
       /\ is_mutating (Called c (Some access_denied)) = true.
Proof.
  assert (H1 : exception (run LockedFinder paper item true true (shelf None))
               = None) by (vm_compute; reflexivity).
  assert (H2 : exception (run LockedFinder paper item false true (shelf None))
               = Some access_denied) by (vm_compute; reflexivity).
  split; [exact H1|]. split; [exact H2|].
  exact (proj2 (write_uri_dry_run_rehearses LockedFinder paper item true
                  (shelf None) access_denied) H1 H2).
Defined.
